(** * Hybrid retrieval engine of [backend/document_processor_vector.py]

    A shallow embedding of the [DocumentProcessor] class: the chunker, the
    ingestion path ([process_document]), persistence ([_load_persistent_data],
    [_save_persistent_data]) and the hybrid search ([search_documents]).
    Part III adds the listing ([get_all_documents]) and the caller of the
    search, the [RAGPipeline] class of [backend/rag_pipeline_simple.py].

    Conventions.
    - A Python [str] is a [string]; every character is read as the code point
      of the same number.  [len], slicing and [strip] are the functions below.
    - A Python [float] is a binary64 [float] of the kernel ([PrimFloat]); the
      arithmetic of the scores is the IEEE arithmetic, rounding included.
    - A Python [int] is a [Z] where it can be negative (FAISS labels, [top_k],
      page bounds) and a [nat] where the code counts from a literal
      ([enumerate], [len], the chunk size).
    - The third-party libraries (pypdf, sentence-transformers, FAISS,
      rank_bm25, hashlib, re) are a record of functions, [Libraries]; nothing
      is assumed about them except where a theorem says so.
    - A call that raises returns [Raise]; the [while] loop of the chunker runs
      on fuel and returns [None] when it would not stop. *)

From Stdlib Require Import String Ascii List ZArith Lia Bool Floats.
From Stdlib Require Import Sorted Permutation FinFun QArith Lqa.
From Stdlib Require Import Decimal DecimalNat DecimalString.
Import ListNotations.

Set Warnings "-inexact-float".

Local Open Scope string_scope.
Local Open Scope list_scope.

(* ################################################################# *)
(** * Part I: the model *)

(* ================================================================= *)
(** ** Python strings *)

Module PyStr.

(** [str.isspace] on the code points below 256: TAB..CR, FS..US, SPACE,
    NEL (0x85) and NBSP (0xA0). *)
Definition isspace (c : ascii) : bool :=
  let n := nat_of_ascii c in
  (((9 <=? n) && (n <=? 13)) || ((28 <=? n) && (n <=? 32))
   || (n =? 133) || (n =? 160))%nat.

Fixpoint lstrip (s : string) : string :=
  match s with
  | EmptyString => EmptyString
  | String c s' => if isspace c then lstrip s' else s
  end.

Definition is_empty (s : string) : bool :=
  match s with EmptyString => true | String _ _ => false end.

Fixpoint rstrip (s : string) : string :=
  match s with
  | EmptyString => EmptyString
  | String c s' =>
      let r := rstrip s' in
      if is_empty r && isspace c then EmptyString else String c r
  end.

(** [s.strip()] *)
Definition strip (s : string) : string := rstrip (lstrip s).

(** [s[start:start+size]] for non-negative bounds. *)
Definition slice (s : string) (start size : nat) : string :=
  substring start size s.

(** [bool(s)] *)
Definition truthy (s : string) : bool := negb (is_empty s).

Fixpoint all_space (s : string) : bool :=
  match s with
  | EmptyString => true
  | String c s' => isspace c && all_space s'
  end.

(** ["c" * n] *)
Fixpoint repeat (c : ascii) (n : nat) : string :=
  match n with
  | O => EmptyString
  | S k => String c (repeat c k)
  end.

End PyStr.

(* ================================================================= *)
(** ** The chunker: [_chunk_text] *)

(** The [while start < text_length] loop.  Each turn appends
    [text[start:start+chunk_size].strip()] and adds [chunk_size - overlap] to
    [start].  The offset of every window is kept next to the chunk; the
    source keeps the chunk only ([_chunk_text] below drops the offsets).
    [None]: the fuel ran out. *)
Fixpoint chunk_loop (fuel : nat) (text : string) (chunk_size overlap : nat)
    (start : nat) : option (list (nat * string)) :=
  if (start <? String.length text)%nat then
    match fuel with
    | O => None
    | S fuel' =>
        let chunk := PyStr.slice text start chunk_size in
        option_map (cons (start, PyStr.strip chunk))
          (chunk_loop fuel' text chunk_size overlap
             (start + (chunk_size - overlap)))
    end
  else Some [].

(** The windows of a text with their start offsets.  A loop that advances
    takes at most [len(text)] turns, so this fuel is enough exactly when the
    Python loop stops ([chunk_windows_total], [chunk_loop_diverges]): with
    [overlap >= chunk_size] the offset of the Python loop never passes the
    end of a non-empty text.  The sizes are naturals: the only call passes
    1000 and 200. *)
Definition chunk_windows (text : string) (chunk_size overlap : nat)
  : option (list (nat * string)) :=
  chunk_loop (String.length text) text chunk_size overlap 0.

Definition _chunk_text (text : string) (chunk_size overlap : nat)
  : option (list string) :=
  option_map (map snd) (chunk_windows text chunk_size overlap).

(* ================================================================= *)
(** ** Outcomes of a call, Python sequences and dicts *)

Inductive exn : Type :=
| IndexError       (* a subscript out of range *)
| AssertionError   (* FAISS refuses the shape of its argument *)
| LibraryError.    (* anything a third-party call raises *)

Inductive result (A : Type) : Type :=
| Ok (a : A)
| Raise (e : exn).

Arguments Ok {A} a.
Arguments Raise {A} e.

Definition bind {A B : Type} (r : result A) (k : A -> result B) : result B :=
  match r with
  | Ok a => k a
  | Raise e => Raise e
  end.

Notation "x <- r ;; k" := (bind r (fun x => k))
  (at level 61, r at next level, right associativity).

Module Py.

(** [l[i]] with Python's reading of a negative subscript. *)
Definition getitem {A : Type} (l : list A) (i : Z) : result A :=
  let n := Z.of_nat (length l) in
  let j := if (i <? 0)%Z then (n + i)%Z else i in
  if ((0 <=? j) && (j <? n))%Z then
    match nth_error l (Z.to_nat j) with
    | Some a => Ok a
    | None => Raise IndexError
    end
  else Raise IndexError.

(** [l[:stop]] *)
Definition slice_to {A : Type} (l : list A) (stop : Z) : list A :=
  if (stop <? 0)%Z
  then firstn (Z.to_nat (Z.of_nat (length l) + stop)) l
  else firstn (Z.to_nat stop) l.

(** [d[k] = v] on a dict kept as the list of its items in insertion order:
    a key already present keeps its place and takes the new value. *)
Fixpoint dict_set {K V : Type} (eqb : K -> K -> bool) (k : K) (v : V)
    (d : list (K * V)) : list (K * V) :=
  match d with
  | [] => [(k, v)]
  | (k', v') :: d' =>
      if eqb k k' then (k, v) :: d' else (k', v') :: dict_set eqb k v d'
  end.

Fixpoint dict_get {K V : Type} (eqb : K -> K -> bool) (k : K)
    (d : list (K * V)) : option V :=
  match d with
  | [] => None
  | (k', v') :: d' => if eqb k k' then Some v' else dict_get eqb k d'
  end.

Definition is_nil {A : Type} (l : list A) : bool :=
  match l with [] => true | _ :: _ => false end.

(** [bool(x)] of a float: every value but the two zeros. *)
Definition float_truthy (x : float) : bool := negb (x =? 0)%float.

End Py.

(* ================================================================= *)
(** ** Score fusion *)

(** [vector_score = float(1 / (1 + dist))].  NumPy adds the [float32]
    distance to the Python [1] in [float64] or in [float32] according to its
    version; the model computes in binary64. *)
Definition vector_score (dist : float) : float := (1 / (1 + dist))%float.

(** [0.6 * vector_score + 0.4 * (bm25_score / 10.0 if bm25_score > 0.0 else 0.0)] *)
Definition combined_score (vector_score bm25_score : float) : float :=
  (0.6 * vector_score
   + 0.4 * (if 0 <? bm25_score then bm25_score / 10 else 0))%float.

(** The expression of the combined score over any arithmetic: numbers [F]
    with sum, product, quotient, the test [0 < b] and the five constants.
    [combined_score] is its value in binary64
    ([combined_score_is_fusion]). *)
Definition fusion (F : Type) (add mul div : F -> F -> F)
    (positive : F -> bool) (c0 c1 c10 w_vector w_keyword : F)
    (dist b : F) : F :=
  add (mul w_vector (div c1 (add c1 dist)))
      (mul w_keyword (if positive b then div b c10 else c0)).



(* ================================================================= *)
(** ** Data model *)

Record Chunk : Type := {
  id : string;
  document_id : string;
  filename : string;
  page_number : nat;
  chunk_index : nat;
  content : string
}.

(** A value of [combined_results]. *)
Record Scored : Type := {
  sc_chunk : Chunk;
  sc_score : float;
  sc_vector_score : float;
  sc_bm25_score : float
}.

(** A returned chunk: a copy of the chunk with the three scores added. *)
Record RankedChunk : Type := {
  rc_chunk : Chunk;
  relevance_score : float;
  rc_vector_score : float;
  rc_bm25_score : float
}.

(** The [filters] dict; a key that is missing is [None]. *)
Record Filters : Type := {
  document : option string;
  page_range : option (list Z);
  min_confidence : option float
}.

(** [faiss.IndexFlatL2(d)]: the rows added so far, in order. *)
Record FaissIndex : Type := {
  dim : nat;
  vectors : list (list float)
}.

Definition ntotal (ix : FaissIndex) : nat := length (vectors ix).

Record DocMeta : Type := {
  meta_filename : string;
  meta_path : string;
  meta_chunks_count : nat
}.

Record UploadFile : Type := {
  upload_filename : string;
  upload_content : string
}.

(** What [page.extract_text()] does on one page. *)
Inductive Page : Type :=
| PageText (text : string)
| PageRaises.

(** The dict [process_document] returns. *)
Record Response : Type := {
  resp_document_id : string;
  resp_filename : string;
  resp_chunks_count : nat;
  resp_error : option string
}.

(** A persisted file: not there, there and unreadable, or there with a value. *)
Inductive Stored (A : Type) : Type :=
| Absent
| Corrupt
| Present (a : A).

Arguments Absent {A}.
Arguments Corrupt {A}.
Arguments Present {A} a.

(* ================================================================= *)
(** ** The third-party libraries *)

(** What the class calls and does not define.  [BM25] is the type of a
    [rank_bm25.BM25Okapi] object. *)
Class Libraries : Type := {
  BM25 : Type;
  (** [hashlib.md5(s.encode()).hexdigest()] *)
  md5_hexdigest : string -> string;
  (** [str(upload_dir / filename)] *)
  upload_path : string -> string;
  (** writing the uploaded bytes to [upload_dir / filename] *)
  write_upload : UploadFile -> result unit;
  (** [PdfReader(path).pages], each page with what [extract_text] does *)
  PdfReader : string -> result (list Page);
  (** [SentenceTransformer.encode(texts)] *)
  encode : list string -> result (list (list float));
  (** [zip(distances[0], indices[0])] of [index.search(query_vector, k)] *)
  faiss_search : FaissIndex -> list float -> Z -> result (list (float * Z));
  (** [BM25Okapi(corpus)] *)
  BM25Okapi : list (list string) -> result BM25;
  (** [bm25.get_scores(tokens)] *)
  get_scores : BM25 -> list string -> result (list float);
  (** [s.lower()] *)
  str_lower : string -> string;
  (** [re.findall(r'\w+', s)] *)
  re_findall_words : string -> list string
}.

(** [str(n)] of a natural number: its decimal digits. *)
Definition str_of_nat (n : nat) : string :=
  NilEmpty.string_of_uint (Nat.to_uint n).

(** [f"{doc_id}_page{page_num}_chunk{chunk_idx}"] *)
Definition chunk_id (doc_id : string) (page_num chunk_idx : nat) : string :=
  doc_id ++ "_page" ++ str_of_nat page_num ++ "_chunk" ++ str_of_nat chunk_idx.

(** The records appended for one page: [enumerate(page_chunks)]. *)
Definition page_records (doc_id filename : string) (page_num : nat)
    (page_chunks : list string) : list Chunk :=
  map (fun '(chunk_idx, chunk_text) =>
         {| id := chunk_id doc_id page_num chunk_idx;
            document_id := doc_id;
            filename := filename;
            page_number := page_num;
            chunk_index := chunk_idx;
            content := chunk_text |})
      (combine (seq 0 (length page_chunks)) page_chunks).

(** The [for page_num, page in enumerate(reader.pages, start=1)] loop inside
    the [try].  A page that raises ends the loop with the chunks so far.
    [None]: the chunker did not return. *)
Fixpoint extract_pages (doc_id filename : string) (pages : list Page)
    (page_num : nat) (chunks : list Chunk) : option (list Chunk) :=
  match pages with
  | [] => Some chunks
  | PageRaises :: _ => Some chunks
  | PageText text :: rest =>
      if PyStr.truthy (PyStr.strip text) then
        match _chunk_text text 1000 200 with
        | None => None
        | Some page_chunks =>
            extract_pages doc_id filename rest (S page_num)
              (chunks ++ page_records doc_id filename page_num page_chunks)
        end
      else extract_pages doc_id filename rest (S page_num) chunks
  end.

Section DocumentProcessor.

Context {lib : Libraries}.

(** The persistent state of a [DocumentProcessor]. *)
Record DocumentProcessor : Type := {
  index : FaissIndex;
  chunks : list Chunk;
  documents : list (string * DocMeta);
  bm25 : option BM25;
  tokenized_chunks : list (list string)
}.

(** The four files under [upload_dir]. *)
Record Disk : Type := {
  index_file : Stored FaissIndex;
  chunks_file : Stored (list Chunk);
  metadata_file : Stored (list (string * DocMeta));
  bm25_file : Stored (BM25 * list (list string))
}.

Definition embedding_dim : nat := 384.

(** The fields as [__init__] sets them before loading. *)
Definition fresh : DocumentProcessor :=
  {| index := {| dim := embedding_dim; vectors := [] |};
     chunks := [];
     documents := [];
     bm25 := None;
     tokenized_chunks := [] |}.

Definition empty_disk : Disk :=
  {| index_file := Absent; chunks_file := Absent;
     metadata_file := Absent; bm25_file := Absent |}.

Definition vector_count (s : DocumentProcessor) : nat := ntotal (index s).

(** [_extract_and_chunk_pdf]; a reader that raises leaves [chunks] empty. *)
Definition _extract_and_chunk_pdf (file_content doc_id filename : string)
  : option (list Chunk) :=
  match PdfReader file_content with
  | Raise _ => Some []
  | Ok pages => extract_pages doc_id filename pages 1 []
  end.

(** [_tokenize] *)
Definition _tokenize (text : string) : list string :=
  re_findall_words (str_lower text).

(** [_build_bm25_index]: the processor after the call and how the call ended. *)
Definition _build_bm25_index (s : DocumentProcessor)
  : DocumentProcessor * result unit :=
  if Py.is_nil (chunks s) then (s, Ok tt)
  else
    let tokenized := map (fun chunk => _tokenize (content chunk)) (chunks s) in
    let s1 := {| index := index s; chunks := chunks s;
                 documents := documents s; bm25 := bm25 s;
                 tokenized_chunks := tokenized |} in
    match BM25Okapi tokenized with
    | Raise e => (s1, Raise e)
    | Ok model =>
        ({| index := index s; chunks := chunks s;
            documents := documents s; bm25 := Some model;
            tokenized_chunks := tokenized |}, Ok tt)
    end.

(** [index.add(rows)]: FAISS asserts the width of the rows. *)
Definition index_add (ix : FaissIndex) (rows : list (list float))
  : result FaissIndex :=
  if forallb (fun row => (length row =? dim ix)%nat) rows
  then Ok {| dim := dim ix; vectors := vectors ix ++ rows |}
  else Raise AssertionError.

(** [_save_persistent_data] when the file system takes every write.  The
    keyword file is written only [if self.bm25]. *)
Definition _save_persistent_data (s : DocumentProcessor) (disk : Disk) : Disk :=
  {| index_file := Present (index s);
     chunks_file := Present (chunks s);
     metadata_file := Present (documents s);
     bm25_file := match bm25 s with
                  | Some model => Present (model, tokenized_chunks s)
                  | None => bm25_file disk
                  end |}.

(** [_load_persistent_data]: the four reads in order inside one [try]; the
    first file that cannot be read ends the loading. *)
Definition _load_persistent_data (s : DocumentProcessor) (disk : Disk)
  : DocumentProcessor :=
  match index_file disk with
  | Corrupt => s
  | f1 =>
    let ix := match f1 with Present i => i | _ => index s end in
    let s1 := {| index := ix; chunks := chunks s; documents := documents s;
                 bm25 := bm25 s; tokenized_chunks := tokenized_chunks s |} in
    match chunks_file disk with
    | Corrupt => s1
    | f2 =>
      let cs := match f2 with Present c => c | _ => chunks s end in
      let s2 := {| index := ix; chunks := cs; documents := documents s;
                   bm25 := bm25 s; tokenized_chunks := tokenized_chunks s |} in
      match metadata_file disk with
      | Corrupt => s2
      | f3 =>
        let ds := match f3 with Present m => m | _ => documents s end in
        let s3 := {| index := ix; chunks := cs; documents := ds;
                     bm25 := bm25 s; tokenized_chunks := tokenized_chunks s |} in
        match bm25_file disk with
        | Present (model, tokenized) =>
            {| index := ix; chunks := cs; documents := ds;
               bm25 := Some model; tokenized_chunks := tokenized |}
        | _ => s3
        end
      end
    end
  end.

(** [__init__]: load, then build and save the keyword index when chunks were
    loaded without one. *)
Definition init (disk : Disk) : result (DocumentProcessor * Disk) :=
  let s := _load_persistent_data fresh disk in
  match chunks s, bm25 s with
  | _ :: _, None =>
      match _build_bm25_index s with
      | (_, Raise e) => Raise e
      | (s', Ok _) => Ok (s', _save_persistent_data s' disk)
      end
  | _, _ => Ok (s, disk)
  end.

(** [process_document].  The outcome comes with the processor and the disk as
    the call leaves them; [None]: the call does not return. *)
Definition process_document (s : DocumentProcessor) (disk : Disk)
    (file : UploadFile)
  : option (DocumentProcessor * Disk * result Response) :=
  let doc_id := md5_hexdigest (upload_filename file) in
  match write_upload file with
  | Raise e => Some (s, disk, Raise e)
  | Ok _ =>
  match _extract_and_chunk_pdf (upload_content file) doc_id
          (upload_filename file) with
  | None => None
  | Some text_chunks =>
    Some
    (if Py.is_nil text_chunks then
      (s, disk,
       Ok {| resp_document_id := doc_id;
             resp_filename := upload_filename file;
             resp_chunks_count := 0;
             resp_error := Some "No text extracted from PDF" |})
    else
      let texts := map content text_chunks in
      match encode texts with
      | Raise e => (s, disk, Raise e)
      | Ok embeddings =>
        match index_add (index s) embeddings with
        | Raise e => (s, disk, Raise e)
        | Ok index' =>
          let s1 := {| index := index';
                       chunks := chunks s ++ text_chunks;
                       documents := documents s; bm25 := bm25 s;
                       tokenized_chunks := tokenized_chunks s |} in
          match _build_bm25_index s1 with
          | (s2, Raise e) => (s2, disk, Raise e)
          | (s2, Ok _) =>
            let meta := {| meta_filename := upload_filename file;
                           meta_path := upload_path (upload_filename file);
                           meta_chunks_count := length text_chunks |} in
            let s3 := {| index := index s2; chunks := chunks s2;
                         documents :=
                           Py.dict_set String.eqb doc_id meta (documents s2);
                         bm25 := bm25 s2;
                         tokenized_chunks := tokenized_chunks s2 |} in
            (s3, _save_persistent_data s3 disk,
             Ok {| resp_document_id := doc_id;
                   resp_filename := upload_filename file;
                   resp_chunks_count := length text_chunks;
                   resp_error := None |})
          end
        end
      end)
  end
  end.

(* ----------------------------------------------------------------- *)
(** *** Hybrid search *)

(** [bm25_scores[int(idx)] if len(bm25_scores) > 0 and int(idx) < len(bm25_scores) else 0.0] *)
Definition bm25_lookup (bm25_scores : list float) (idx : Z) : result float :=
  if ((0 <? Z.of_nat (length bm25_scores))
      && (idx <? Z.of_nat (length bm25_scores)))%Z
  then Py.getitem bm25_scores idx
  else Ok 0%float.

(** The loop over [zip(distances[0], indices[0])] that fills
    [combined_results]. *)
Fixpoint score_hits (chunks : list Chunk) (bm25_scores : list float)
    (hits : list (float * Z)) (combined_results : list (Z * Scored))
  : result (list (Z * Scored)) :=
  match hits with
  | [] => Ok combined_results
  | (dist, idx) :: rest =>
      if (idx <? Z.of_nat (length chunks))%Z then
        let vs := vector_score dist in
        bm25_score <- bm25_lookup bm25_scores idx ;;
        let combined := combined_score vs bm25_score in
        chunk <- Py.getitem chunks idx ;;
        score_hits chunks bm25_scores rest
          (Py.dict_set Z.eqb idx
             {| sc_chunk := chunk; sc_score := combined;
                sc_vector_score := vs; sc_bm25_score := bm25_score |}
             combined_results)
      else score_hits chunks bm25_scores rest combined_results
  end.

(** One step of a stable descending sort: [x] stood before every item of
    [sorted] and goes behind the items whose score is greater than its own. *)
Fixpoint insert_desc (x : Z * Scored) (sorted : list (Z * Scored))
  : list (Z * Scored) :=
  match sorted with
  | [] => [x]
  | y :: rest =>
      if (sc_score (snd x) <? sc_score (snd y))%float
      then y :: insert_desc x rest
      else x :: sorted
  end.

(** [sorted(items, key=lambda x: x[1]['score'], reverse=True)].  Python's sort
    compares keys with [<] and is stable, also when reversed; on keys that
    [<] orders (no NaN) its result is the one computed here. *)
Definition sorted_by_score (items : list (Z * Scored)) : list (Z * Scored) :=
  fold_right insert_desc [] items.

(** [filters and filters.get(key)], as the value when it is truthy. *)
Definition filter_value {V : Type} (filters : option Filters)
    (get : Filters -> option V) (truthy : V -> bool) : option V :=
  match filters with
  | None => None
  | Some f =>
      match get f with
      | Some v => if truthy v then Some v else None
      | None => None
      end
  end.

Definition list_truthy {A : Type} (l : list A) : bool := negb (Py.is_nil l).

(** The three filters of the loop body: [Ok false] is a [continue]. *)
Definition keep_candidate (filters : option Filters) (data : Scored)
  : result bool :=
  let chunk := sc_chunk data in
  let rejected_by_document :=
    match filter_value filters document PyStr.truthy with
    | Some doc => negb (String.eqb (filename chunk) doc)
    | None => false
    end in
  if rejected_by_document then Ok false
  else
    rejected_by_page <-
      match filter_value filters page_range list_truthy with
      | Some range =>
          page_min <- Py.getitem range 0 ;;
          page_max <- Py.getitem range 1 ;;
          let page_num := Z.of_nat (page_number chunk) in
          Ok (negb ((page_min <=? page_num) && (page_num <=? page_max))%Z)
      | None => Ok false
      end ;;
    if rejected_by_page then Ok false
    else
      match filter_value filters min_confidence Py.float_truthy with
      | Some min_conf =>
          if (sc_score data <? min_conf)%float then Ok false else Ok true
      | None => Ok true
      end.

Definition annotate (data : Scored) : RankedChunk :=
  {| rc_chunk := sc_chunk data;
     relevance_score := sc_score data;
     rc_vector_score := sc_vector_score data;
     rc_bm25_score := sc_bm25_score data |}.

(** The loop over [sorted_results[:top_k * 2]].  Every result is kept with the
    key it has in [combined_results]; the source keeps the chunk only. *)
Fixpoint filter_loop (filters : option Filters) (top_k : Z)
    (candidates : list (Z * Scored))
    (filtered_results : list (Z * RankedChunk))
  : result (list (Z * RankedChunk)) :=
  match candidates with
  | [] => Ok filtered_results
  | (idx, data) :: rest =>
      keep <- keep_candidate filters data ;;
      if keep then
        let filtered_results' := filtered_results ++ [(idx, annotate data)] in
        if (top_k <=? Z.of_nat (length filtered_results'))%Z
        then Ok filtered_results'
        else filter_loop filters top_k rest filtered_results'
      else filter_loop filters top_k rest filtered_results
  end.

(** The candidates of a query: what the vector index and the keyword index
    answer. *)
Definition vector_hits (s : DocumentProcessor) (query : string) (top_k : Z)
  : result (list (float * Z)) :=
  embeddings <- encode [query] ;;
  query_embedding <- Py.getitem embeddings 0 ;;
  faiss_search (index s) query_embedding
    (Z.min (top_k * 2) (Z.of_nat (ntotal (index s)))).

Definition keyword_scores (s : DocumentProcessor) (query : string)
  : result (list float) :=
  match bm25 s with
  | Some model => get_scores model (_tokenize query)
  | None => Ok []
  end.

(** [combined_results] of a query. *)
Definition combined_results (s : DocumentProcessor) (query : string)
    (top_k : Z) : result (list (Z * Scored)) :=
  hits <- vector_hits s query top_k ;;
  bm25_scores <- keyword_scores s query ;;
  score_hits (chunks s) bm25_scores hits [].

(** [search_documents] with the key of every result. *)
Definition search_ranked (s : DocumentProcessor) (query : string) (top_k : Z)
    (filters : option Filters) : result (list (Z * RankedChunk)) :=
  if (ntotal (index s) =? 0)%nat then Ok []
  else
    combined <- combined_results s query top_k ;;
    let sorted_results := sorted_by_score combined in
    filter_loop filters top_k (Py.slice_to sorted_results (top_k * 2)) [].

(** [search_documents] *)
Definition search_documents (s : DocumentProcessor) (query : string)
    (top_k : Z) (filters : option Filters) : result (list RankedChunk) :=
  ranked <- search_ranked s query top_k filters ;;
  Ok (map snd ranked).

(* ----------------------------------------------------------------- *)
(** *** Runs of the processor *)

(** The embedding model returns one row for every text. *)
Definition encode_row_per_text : Prop :=
  forall texts rows, encode texts = Ok rows -> length rows = length texts.

(** A call that returned the dict of a stored document. *)
Definition stored (r : result Response) : Prop :=
  exists resp, r = Ok resp /\ resp_error resp = None.

(** The states a processor constructed over an empty upload directory goes
    through, with the document ids of the calls made so far, whatever their
    outcome. *)
Inductive ingested : list string -> DocumentProcessor -> Prop :=
| ingested_fresh : ingested [] fresh
| ingested_call : forall ids s disk file s' disk' r,
    ingested ids s ->
    process_document s disk file = Some (s', disk', r) ->
    ingested (ids ++ [md5_hexdigest (upload_filename file)]) s'.

End DocumentProcessor.

(* ================================================================= *)
(** ** Notions the statements use *)

(** The start offset and the length of every window. *)
Definition window_lengths (ws : list (nat * string)) : list (nat * nat) :=
  map (fun w => (fst w, String.length (snd w))) ws.

(** The text ["A" * 2500]. *)
Definition text_2500 : string := PyStr.repeat "A"%char 2500.






Definition annotate_item (x : Z * Scored) : Z * RankedChunk :=
  (fst x, annotate (snd x)).

(** Two [filters] arguments with the same truthy values. *)
Definition same_filters (f1 f2 : option Filters) : Prop :=
  filter_value f1 document PyStr.truthy = filter_value f2 document PyStr.truthy
  /\ filter_value f1 page_range list_truthy
     = filter_value f2 page_range list_truthy
  /\ filter_value f1 min_confidence Py.float_truthy
     = filter_value f2 min_confidence Py.float_truthy.


Definition is_digit (c : ascii) : bool :=
  let n := nat_of_ascii c in ((48 <=? n) && (n <=? 57))%nat.

Fixpoint all_digits (s : string) : bool :=
  match s with
  | EmptyString => true
  | String c s' => is_digit c && all_digits s'
  end.

(** The page number and chunk index of a chunk. *)
Definition chunk_place (c : Chunk) : nat * nat :=
  (page_number c, chunk_index c).

(** A chunk whose three identifying fields are those of its id. *)
Definition well_named (doc_id : string) (c : Chunk) : Prop :=
  document_id c = doc_id
  /\ id c = chunk_id doc_id (page_number c) (chunk_index c).

(** [l1] is [l2] with some elements left out. *)
Inductive subseq {A : Type} : list A -> list A -> Prop :=
| subseq_nil : forall l, subseq [] l
| subseq_skip : forall x l1 l2, subseq l1 l2 -> subseq l1 (x :: l2)
| subseq_keep : forall x l1 l2, subseq l1 l2 -> subseq (x :: l1) (x :: l2).

#[local] Hint Constructors subseq : core.

(** A binary64 value of the specification that is a number. *)
Definition sf_is_number (f : spec_float) : bool :=
  match f with S754_nan => false | _ => true end.

Ltac compare_cases :=
  repeat match goal with
  | |- context [Z.compare ?a ?b] =>
      destruct (Z.compare_spec a b); subst; simpl
  | |- context [Pos.compare ?a ?b] =>
      destruct (Pos.compare_spec a b); subst; simpl
  | |- context [PosDef.Pos.compare_cont Eq ?a ?b] =>
      change (PosDef.Pos.compare_cont Eq a b) with (Pos.compare a b);
      destruct (Pos.compare_spec a b); subst; simpl
  end.

Ltac by_cases :=
  repeat match goal with s : bool |- _ => destruct s end; simpl;
  try reflexivity; try discriminate;
  compare_cases; simpl; try reflexivity; try discriminate; try lia.

(* ================================================================= *)
(** ** A small instance *)

(** Stand-ins for the libraries, enough to run the class: a reader that
    splits the file at every ["|"] into pages, an embedding model that returns
    the same row of 384 numbers for every text, a vector search that returns
    the first [k] positions at growing distances, and a keyword model that
    scores 2 the chunks that share a token with the query. *)
Module Demo.

Fixpoint split_on (sep : ascii) (s : string) : list string :=
  match s with
  | EmptyString => [EmptyString]
  | String c s' =>
      if Ascii.eqb c sep then EmptyString :: split_on sep s'
      else match split_on sep s' with
           | [] => [String c EmptyString]
           | part :: parts => String c part :: parts
           end
  end.

Definition digest (fname : string) : string :=
  if String.eqb fname "A.pdf" then PyStr.repeat "a"%char 32
  else if String.eqb fname "B.pdf" then PyStr.repeat "b"%char 32
  else PyStr.repeat "0"%char 32.

Definition row : list float := List.repeat 0.5%float 384.

Definition distances : list float :=
  [0.25; 0.5; 1; 1.5; 3; 7; 15; 31]%float.

Definition search (ix : FaissIndex) (query_vector : list float) (k : Z)
  : result (list (float * Z)) :=
  if (k <=? 0)%Z then Raise AssertionError
  else Ok (firstn (Z.to_nat k)
             (combine distances (map Z.of_nat (seq 0 (ntotal ix))))).

Definition words (s : string) : list string :=
  filter (fun w => negb (PyStr.is_empty w)) (split_on " "%char s).

Definition shares_token (query doc : list string) : bool :=
  existsb (fun t => existsb (String.eqb t) doc) query.

Definition library : Libraries :=
  {| BM25 := list (list string);
     md5_hexdigest := digest;
     upload_path := fun fname => ("./data/uploads/" ++ fname)%string;
     write_upload := fun _ => Ok tt;
     PdfReader := fun file_content =>
                    Ok (map PageText (split_on "|"%char file_content));
     encode := fun texts => Ok (map (fun _ => row) texts);
     faiss_search := search;
     BM25Okapi := fun corpus =>
                    if forallb Py.is_nil corpus then Raise LibraryError
                    else Ok corpus;
     get_scores := fun model query =>
                     Ok (map (fun doc => if shares_token query doc
                                         then 2%float else 0%float) model);
     str_lower := fun s => s;
     re_findall_words := words |}.

(** Two files: [A.pdf] with a blank second page, and [B.pdf]. *)
Definition file_a : UploadFile :=
  {| upload_filename := "A.pdf"; upload_content := "alpha beta|   |gamma" |}.

Definition file_b : UploadFile :=
  {| upload_filename := "B.pdf"; upload_content := "delta alpha" |}.

Definition ingest (state : @DocumentProcessor library * @Disk library)
    (file : UploadFile) : @DocumentProcessor library * @Disk library :=
  match @process_document library (fst state) (snd state) file with
  | Some (s', disk', _) => (s', disk')
  | None => state
  end.

Definition start : @DocumentProcessor library * @Disk library :=
  (@fresh library, @empty_disk library).

(** The corpus after ingesting [A.pdf], and after [B.pdf] as well. *)
Definition corpus_a : @DocumentProcessor library := fst (ingest start file_a).

Definition corpus_ab : @DocumentProcessor library :=
  fst (fold_left ingest [file_a; file_b] start).

(** [A.pdf] ingested twice. *)
Definition corpus_aa : @DocumentProcessor library :=
  fst (fold_left ingest [file_a; file_a] start).

(** An upload directory that holds an index of one vector and nothing else. *)
Definition index_only : @Disk library :=
  {| index_file := Present {| dim := 384; vectors := [row] |};
     chunks_file := Absent;
     metadata_file := Absent;
     bm25_file := Absent |}.

Definition unwrap {A : Type} (default : A) (r : result A) : A :=
  match r with
  | Ok a => a
  | Raise _ => default
  end.

(** The dicts returned for the two files. *)
Definition response_a : Response :=
  {| resp_document_id := digest "A.pdf";
     resp_filename := "A.pdf";
     resp_chunks_count := 2;
     resp_error := None |}.

Definition response_b : Response :=
  {| resp_document_id := digest "B.pdf";
     resp_filename := "B.pdf";
     resp_chunks_count := 1;
     resp_error := None |}.



Definition combined_alpha : list (Z * Scored) :=
  unwrap [] (@combined_results library corpus_ab "alpha" 5).

Definition ranked_alpha (filters : option Filters) : list (Z * RankedChunk) :=
  unwrap [] (@search_ranked library corpus_ab "alpha" 5 filters).

(** Only [B.pdf], page 1, combined score at least 0.3. *)
Definition filters_b : Filters :=
  {| document := Some "B.pdf";
     page_range := Some [1; 1]%Z;
     min_confidence := Some 0.3%float |}.

(** [{'document': ''}] *)
Definition filters_empty_name : Filters :=
  {| document := Some EmptyString;
     page_range := None;
     min_confidence := None |}.

End Demo.

(* ================================================================= *)
(** ** Further notions: windows, listings *)

(** [a / b] rounded up. *)
Definition ceil_div (a b : nat) : nat := ((a + b - 1) / b)%nat.

(** The window of [text] at offset [start], after [strip]. *)
Definition window_at (text : string) (chunk_size start : nat) : nat * string :=
  (start, PyStr.strip (PyStr.slice text start chunk_size)).

Definition first_char (s : string) : option ascii := String.get 0 s.

Fixpoint last_char (s : string) : option ascii :=
  match s with
  | EmptyString => None
  | String c EmptyString => Some c
  | String _ s' => last_char s'
  end.

(** Page then chunk index: the order of [enumerate] inside [enumerate]. *)
Definition place_lt (p q : nat * nat) : Prop :=
  (fst p < fst q)%nat \/ (fst p = fst q /\ snd p < snd q)%nat.

(** No page before position [n] raises in [extract_text]. *)
Definition readable_before (pages : list Page) (n : nat) : Prop :=
  forall m, (m < n)%nat -> nth_error pages m <> Some PageRaises.

(** The record of chunk [chunk_idx] of a page. *)
Definition chunk_record (doc_id filename : string) (page_num chunk_idx : nat)
    (chunk_text : string) : Chunk :=
  {| id := chunk_id doc_id page_num chunk_idx;
     document_id := doc_id;
     filename := filename;
     page_number := page_num;
     chunk_index := chunk_idx;
     content := chunk_text |}.

(* ================================================================= *)
(** ** A second instance, whose libraries fail *)

(** The reader raises on an empty file, and [extract_text] raises on a page
    that reads ["!"]; the upload cannot be written under an empty name; the
    embedding model raises on the text ["boom"] and returns a row of three
    numbers for the text ["narrow"]; the tokenizer is [\w+] on ASCII after
    [lower], and the keyword model raises on a corpus without any token, as
    [rank_bm25] does when it divides by the size of its vocabulary. *)
Module Fragile.

Definition is_word (c : ascii) : bool :=
  let n := nat_of_ascii c in
  (((48 <=? n) && (n <=? 57)) || ((65 <=? n) && (n <=? 90))
   || (n =? 95) || ((97 <=? n) && (n <=? 122)))%nat.

Definition flush (word : string) : list string :=
  if PyStr.is_empty word then [] else [word].

Fixpoint findall_words (s word : string) : list string :=
  match s with
  | EmptyString => flush word
  | String c s' =>
      if is_word c then findall_words s' (word ++ String c EmptyString)
      else flush word ++ findall_words s' EmptyString
  end.

Definition lower_char (c : ascii) : ascii :=
  let n := nat_of_ascii c in
  if ((65 <=? n) && (n <=? 90))%nat then ascii_of_nat (n + 32) else c.

Fixpoint lower (s : string) : string :=
  match s with
  | EmptyString => EmptyString
  | String c s' => String (lower_char c) (lower s')
  end.

Definition page_of (text : string) : Page :=
  if String.eqb text "!" then PageRaises else PageText text.

Definition library : Libraries :=
  {| BM25 := list (list string);
     md5_hexdigest := Demo.digest;
     upload_path := fun fname => ("./data/uploads/" ++ fname)%string;
     write_upload := fun file =>
                       if PyStr.is_empty (upload_filename file)
                       then Raise LibraryError else Ok tt;
     PdfReader := fun file_content =>
                    if PyStr.is_empty file_content then Raise LibraryError
                    else Ok (map page_of
                               (Demo.split_on "|"%char file_content));
     encode := fun texts =>
                 if existsb (String.eqb "boom") texts then Raise LibraryError
                 else Ok (map (fun text =>
                                 if String.eqb text "narrow"
                                 then [0.5; 0.5; 0.5]%float
                                 else Demo.row) texts);
     faiss_search := Demo.search;
     BM25Okapi := fun corpus =>
                    if forallb Py.is_nil corpus then Raise LibraryError
                    else Ok corpus;
     get_scores := fun model query =>
                     Ok (map (fun doc => if Demo.shares_token query doc
                                         then 2%float else 0%float) model);
     str_lower := lower;
     re_findall_words := fun s => findall_words s EmptyString |}.

(** A file whose third page cannot be read. *)
Definition file_torn : UploadFile :=
  {| upload_filename := "A.pdf"; upload_content := "alpha beta|gamma|!|delta" |}.

End Fragile.

(* ================================================================= *)
(** ** Listing the documents *)

(** An item of [get_all_documents]: the metadata of a document with its id
    under ["document_id"]. *)
Record DocumentEntry : Type := {
  entry_document_id : string;
  entry_filename : string;
  entry_path : string;
  entry_chunks_count : nat
}.

Section Listing.

Context {lib : Libraries}.

(** [get_all_documents]: [{"document_id": doc_id, **metadata}] for every item
    of [self.documents], in the order of the dict. *)
Definition get_all_documents (s : DocumentProcessor) : list DocumentEntry :=
  map (fun '(doc_id, metadata) =>
         {| entry_document_id := doc_id;
            entry_filename := meta_filename metadata;
            entry_path := meta_path metadata;
            entry_chunks_count := meta_chunks_count metadata |})
      (documents s).

(** [list_documents] *)
Definition list_documents (s : DocumentProcessor) : list DocumentEntry :=
  get_all_documents s.

(** The token lists of a chunk list. *)
Definition tokenize_all (cs : list Chunk) : list (list string) :=
  map (fun chunk => _tokenize (content chunk)) cs.

(** The dict returned when no text was extracted. *)
Definition no_text_response (file : UploadFile) : Response :=
  {| resp_document_id := md5_hexdigest (upload_filename file);
     resp_filename := upload_filename file;
     resp_chunks_count := 0;
     resp_error := Some "No text extracted from PDF" |}.

(** The entry listed for a file stored with [n] chunks. *)
Definition entry_of (file : UploadFile) (n : nat) : DocumentEntry :=
  {| entry_document_id := md5_hexdigest (upload_filename file);
     entry_filename := upload_filename file;
     entry_path := upload_path (upload_filename file);
     entry_chunks_count := n |}.

(** The chunks held for a document. *)
Definition chunks_of (doc_id : string) (s : DocumentProcessor) : list Chunk :=
  filter (fun c => String.eqb (document_id c) doc_id) (chunks s).

End Listing.



(** More files and states of the two instances. *)
Module Cases.






Definition disk_aa : @Disk Demo.library :=
  snd (fold_left Demo.ingest [Demo.file_a; Demo.file_a] Demo.start).




End Cases.

(* ================================================================= *)
(** ** The filters as a predicate *)

(** The [document] filter alone. *)
Definition document_ok (filters : option Filters) (data : Scored) : bool :=
  match filter_value filters document PyStr.truthy with
  | Some doc => String.eqb (filename (sc_chunk data)) doc
  | None => true
  end.

(** A candidate that no filter with a truthy value rejects, for a page range
    of two bounds or more. *)
Definition passes (filters : option Filters) (data : Scored) : bool :=
  document_ok filters data
  && match filter_value filters page_range list_truthy with
     | Some (page_min :: page_max :: _) =>
         ((page_min <=? Z.of_nat (page_number (sc_chunk data)))
          && (Z.of_nat (page_number (sc_chunk data)) <=? page_max))%Z
     | _ => true
     end
  && match filter_value filters min_confidence Py.float_truthy with
     | Some min_conf => negb (sc_score data <? min_conf)%float
     | None => true
     end.

(** A [page_range] that is falsy or has its two bounds. *)
Definition usable_range (filters : option Filters) : Prop :=
  match filter_value filters page_range list_truthy with
  | Some range => (2 <= length range)%nat
  | None => True
  end.

(* ================================================================= *)
(** ** The caller: [RAGPipeline] of [backend/rag_pipeline_simple.py] *)

Module PyText.

(** The line feed. *)
Definition nl : string := String (ascii_of_nat 10) EmptyString.

(** [needle in s] *)
Fixpoint contains (needle s : string) : bool :=
  String.prefix needle s
  || match s with
     | EmptyString => false
     | String _ s' => contains needle s'
     end.

(** [s.startswith(p)] *)
Definition startswith (s p : string) : bool := String.prefix p s.

(** [s.lower()] of a string of ASCII characters. *)
Definition lower_char (c : ascii) : ascii :=
  let n := nat_of_ascii c in
  if ((65 <=? n) && (n <=? 90))%nat then ascii_of_nat (n + 32) else c.

Fixpoint lower (s : string) : string :=
  match s with
  | EmptyString => EmptyString
  | String c s' => String (lower_char c) (lower s')
  end.

(** [sep.join(parts)] *)
Definition join (sep : string) (parts : list string) : string :=
  String.concat sep parts.

(** [bool(x)] of an optional string: [None] and [""] are falsy. *)
Definition truthy (x : option string) : bool :=
  match x with
  | Some s => PyStr.truthy s
  | None => false
  end.

End PyText.

(** How [generate_answer] reads the response of the model. *)
Inductive GeminiResponse : Type :=
| ResponseText (text : string)    (* [response.text] is there and truthy *)
| CandidateText (text : string)   (* only [candidates[0].content.parts[0].text] *)
| ResponseBlocked                 (* a first candidate without content parts *)
| ResponseEmpty.                  (* neither text nor candidates *)

(** What the pipeline calls and does not define. *)
Class Gemini : Type := {
  (** [client.generate_content(full_prompt, generation_config=...)] and the
      reading of its response; [Raise]: anything raised on the way *)
  generate_content : string -> result GeminiResponse;
  (** [round(x, 3)] *)
  round3 : float -> float
}.

(** An item of ["sources"]; the sources of an error have no preview. *)
Record Source : Type := {
  src_filename : string;
  src_page_number : nat;
  src_relevance_score : float;
  src_preview : option string
}.

(** The dict [generate_answer] returns; ["chunks_found"] is not always
    there. *)
Record Answer : Type := {
  answer : string;
  sources : list Source;
  confidence : string;
  chunks_found : option nat
}.

(** The dict [process_query] returns. *)
Record QueryResult : Type := {
  reply : Answer;
  conversation_id : option string
}.

(** An item of a conversation's history. *)
Record Exchange : Type := {
  exchange_query : string;
  exchange_answer : string;
  exchange_sources : list Source
}.

(** [sum(xs)] of floats, from the integer 0. *)
Definition py_sum (xs : list float) : float :=
  fold_left PrimFloat.add xs 0%float.

(** [float(n)] of a small count: [n] times 1.0, summed without rounding. *)
Fixpoint float_of_nat (n : nat) : float :=
  match n with
  | O => 0%float
  | S k => (float_of_nat k + 1)%float
  end.

Definition no_results_answer : string :=
  "I couldn't find any relevant information in the documents to answer your question.".

Definition configuration_error : string :=
  "Gemini API key not configured. Please add GEMINI_API_KEY to .env file.".

Definition note_blocked : string :=
  "*Note: The AI response was blocked by content filters. The information above is directly from your documents.*".

Definition note_empty : string :=
  "*Note: AI response generation returned empty. The information above is directly from your documents.*".

Definition note_unavailable : string :=
  "*Note: AI response generation is temporarily unavailable. The information above is directly from your documents.*".

Definition note_not_configured : string :=
  "*Note: AI response generation is not configured. The information above is directly from your documents.*".

Definition key_needed : string :=
  "I found relevant information in your documents, but the Gemini API key needs to be configured to generate an answer. Here's what I found:".

(** [f"[From {chunk['filename']}, Page {chunk['page_number']}]:\n{chunk['content']}"] *)
Definition context_entry (chunk : RankedChunk) : string :=
  "[From " ++ filename (rc_chunk chunk) ++ ", Page "
  ++ str_of_nat (page_number (rc_chunk chunk)) ++ "]:" ++ PyText.nl
  ++ content (rc_chunk chunk).

(** The context of the prompt: the top three chunks. *)
Definition context_of (context_chunks : list RankedChunk) : string :=
  PyText.join (PyText.nl ++ PyText.nl)%string
    (map context_entry (Py.slice_to context_chunks 3)).

Definition prompt_of (query context : string) : string :=
  "You are an expert construction project document analyzer. Analyze the provided context and answer the question with precision."
  ++ PyText.nl ++ PyText.nl
  ++ "Context from documents:" ++ PyText.nl
  ++ context ++ PyText.nl ++ PyText.nl
  ++ "Question: " ++ query ++ PyText.nl ++ PyText.nl
  ++ "Instructions:" ++ PyText.nl
  ++ "1. Provide a clear, direct answer to the question" ++ PyText.nl
  ++ "2. Use bullet points for multiple items or specifications" ++ PyText.nl
  ++ "3. Include relevant technical details (measurements, ratings, materials, etc.)"
  ++ PyText.nl
  ++ "4. Reference the specific document and page where information was found"
  ++ PyText.nl
  ++ "5. If information is incomplete, clearly state what's missing"
  ++ PyText.nl
  ++ "6. Use professional construction terminology" ++ PyText.nl ++ PyText.nl
  ++ "Answer:".

Definition full_prompt_of (prompt : string) : string :=
  "You are a helpful construction project assistant." ++ PyText.nl
  ++ PyText.nl ++ prompt.

(** [f"Based on the retrieved documents:\n\n{context[:800]}\n\n{note}"] *)
Definition fallback_answer (context note : string) : string :=
  "Based on the retrieved documents:" ++ PyText.nl ++ PyText.nl
  ++ PyStr.slice context 0 800 ++ PyText.nl ++ PyText.nl ++ note.

(** [content[:150] + "..." if len(content) > 150 else content] *)
Definition preview_of (content : string) : string :=
  if (150 <? String.length content)%nat
  then PyStr.slice content 0 150 ++ "..."
  else content.

(** The sources of the [except] branch. *)
Definition error_source (chunk : RankedChunk) : Source :=
  {| src_filename := filename (rc_chunk chunk);
     src_page_number := page_number (rc_chunk chunk);
     src_relevance_score := relevance_score chunk;
     src_preview := None |}.

(** [f"\n{i}. From {chunk['filename']} (Page {chunk['page_number']}):\n{chunk['content'][:200]}...\n"] *)
Definition found_entry (item : nat * RankedChunk) : string :=
  PyText.nl ++ str_of_nat (fst item) ++ ". From "
  ++ filename (rc_chunk (snd item)) ++ " (Page "
  ++ str_of_nat (page_number (rc_chunk (snd item))) ++ "):" ++ PyText.nl
  ++ PyStr.slice (content (rc_chunk (snd item))) 0 200 ++ "..." ++ PyText.nl.

(** The [except Exception as e] branch of [generate_answer]. *)
Definition error_answer (error_msg : string)
    (context_chunks : list RankedChunk) : Answer :=
  let top := Py.slice_to context_chunks 3 in
  let text :=
    if PyText.contains "api key" (PyText.lower error_msg)
       || PyText.contains "401" error_msg
    then fold_left (fun acc item => (acc ++ found_entry item)%string)
           (combine (seq 1 (length top)) top)
           (key_needed ++ PyText.nl ++ PyText.nl)%string
    else ("Sorry, I encountered an error: " ++ error_msg)%string in
  {| answer := text;
     sources := map error_source top;
     confidence := "error";
     chunks_found := None |}.

(** [avg_score > 0.7], [avg_score > 0.5] *)
Definition confidence_of (avg_score : float) : string :=
  if (0.7 <? avg_score)%float then "high"
  else if (0.5 <? avg_score)%float then "medium"
  else "low".

(** [gemini_key and "YOUR_" not in gemini_key and gemini_key.startswith("AIza")] *)
Definition usable_key (gemini_key : option string) : bool :=
  match gemini_key with
  | Some key =>
      PyStr.truthy key && negb (PyText.contains "YOUR_" key)
      && PyText.startswith key "AIza"
  | None => false
  end.

Section RAGPipeline.

Context {lib : Libraries} {llm : Gemini}.

(** The fields of a [RAGPipeline]; [client] is [self.client is not None]. *)
Record RAGPipeline : Type := {
  client : bool;
  use_gemini : bool;
  api_key_valid : bool;
  doc_processor : option DocumentProcessor;
  conversation_history : list (string * list Exchange)
}.

(** [RAGPipeline.__init__] for the value of [GEMINI_API_KEY], whether the
    package was imported and whether [genai.configure] and
    [genai.GenerativeModel] returned. *)
Definition rag_init (gemini_key : option string)
    (gemini_available configured : bool)
    (processor : option DocumentProcessor) : RAGPipeline :=
  let ready := usable_key gemini_key && gemini_available && configured in
  {| client := ready;
     use_gemini := ready;
     api_key_valid := ready;
     doc_processor := processor;
     conversation_history := [] |}.

(** The sources of a generated answer. *)
Definition source_of (chunk : RankedChunk) : Source :=
  {| src_filename := filename (rc_chunk chunk);
     src_page_number := page_number (rc_chunk chunk);
     src_relevance_score := round3 (relevance_score chunk);
     src_preview := Some (preview_of (content (rc_chunk chunk))) |}.

(** The answer text of the [try] block once the client is known to be
    configured. *)
Definition answer_text (p : RAGPipeline) (query context : string) : string :=
  if use_gemini p then
    match generate_content (full_prompt_of (prompt_of query context)) with
    | Ok (ResponseText text) => text
    | Ok (CandidateText text) => text
    | Ok ResponseBlocked => fallback_answer context note_blocked
    | Ok ResponseEmpty => fallback_answer context note_empty
    | Raise _ => fallback_answer context note_unavailable
    end
  else fallback_answer context note_not_configured.

(** [generate_answer] *)
Definition generate_answer (p : RAGPipeline) (query : string)
    (context_chunks : list RankedChunk) : Answer :=
  if Py.is_nil context_chunks then
    {| answer := no_results_answer;
       sources := [];
       confidence := "low";
       chunks_found := None |}
  else
    let context := context_of context_chunks in
    if negb (client p) || negb (api_key_valid p) then
      error_answer configuration_error context_chunks
    else
      let text := answer_text p query context in
      let found := map source_of (Py.slice_to context_chunks 3) in
      let avg_score :=
        if Py.is_nil found then 0%float
        else (py_sum (map src_relevance_score found)
              / float_of_nat (length found))%float in
      {| answer := text;
         sources := found;
         confidence := confidence_of avg_score;
         chunks_found := Some (length context_chunks) |}.

(** [process_query]: the pipeline after the call and the returned dict;
    [Raise]: the search raised. *)
Definition process_query (p : RAGPipeline) (query : string)
    (conv_id : option string) (filters : option Filters)
  : result (RAGPipeline * QueryResult)%type :=
  match doc_processor p with
  | None =>
      Ok (p, {| reply := {| answer := "Document processor not initialized.";
                            sources := [];
                            confidence := "error";
                            chunks_found := None |};
                conversation_id := conv_id |})
  | Some processor =>
      context_chunks <- search_documents processor query 5 filters ;;
      let generated := generate_answer p query context_chunks in
      let p' :=
        match conv_id with
        | Some cid =>
            if PyStr.truthy cid then
              let earlier :=
                match Py.dict_get String.eqb cid (conversation_history p) with
                | Some exchanges => exchanges
                | None => []
                end in
              {| client := client p;
                 use_gemini := use_gemini p;
                 api_key_valid := api_key_valid p;
                 doc_processor := doc_processor p;
                 conversation_history :=
                   Py.dict_set String.eqb cid
                     (earlier ++ [{| exchange_query := query;
                                     exchange_answer := answer generated;
                                     exchange_sources := sources generated |}])
                     (conversation_history p) |}
            else p
        | None => p
        end in
      Ok (p', {| reply := generated; conversation_id := conv_id |})
  end.

(** The exchanges kept for a conversation. *)
Definition history_of (p : RAGPipeline) (cid : string) : list Exchange :=
  match Py.dict_get String.eqb cid (conversation_history p) with
  | Some exchanges => exchanges
  | None => []
  end.

End RAGPipeline.

(** Two stand-ins for the model: one that answers, one that raises. *)
Module Models.

Definition answering : Gemini :=
  {| generate_content := fun _ => Ok (ResponseText "It is in alpha.");
     round3 := fun x => x |}.

Definition failing : Gemini :=
  {| generate_content := fun _ => Raise LibraryError;
     round3 := fun x => x |}.

(** A pipeline over the corpus of both files, with and without a key. *)
Definition with_key : @RAGPipeline Demo.library :=
  @rag_init Demo.library (Some "AIzaSyExampleKey") true true
    (Some Demo.corpus_ab).

Definition without_key : @RAGPipeline Demo.library :=
  @rag_init Demo.library (Some "YOUR_API_KEY") true true
    (Some Demo.corpus_ab).

(** A pipeline over a processor without documents. *)
Definition over_nothing : @RAGPipeline Demo.library :=
  @rag_init Demo.library (Some "AIzaSyExampleKey") true true
    (Some (@fresh Demo.library)).

(** The chunks retrieved for ["alpha"]. *)
Definition retrieved : list RankedChunk := map snd (Demo.ranked_alpha None).

Definition nothing : QueryResult :=
  {| reply := {| answer := EmptyString; sources := [];
                 confidence := EmptyString; chunks_found := None |};
     conversation_id := None |}.

(** The query ["alpha"] asked in the conversation ["c1"]. *)
Definition asked : @RAGPipeline Demo.library * QueryResult :=
  Demo.unwrap (with_key, nothing)
    (@process_query Demo.library answering with_key "alpha" (Some "c1") None).

End Models.

(* ################################################################# *)
(** * Part II: the properties *)

(* ================================================================= *)
(** ** The model on small inputs *)

Example strip_example : PyStr.strip "  a b  " = "a b".
Proof. reflexivity. Qed.

Example chunk_windows_example :
  chunk_windows "abcdefghij" 4 1
  = Some [(0, "abcd"); (3, "defg"); (6, "ghij"); (9, "j")]%nat.
Proof. reflexivity. Qed.

(** Called on blank text, the chunker returns one empty chunk per window. *)
Example chunk_text_of_blank_text : _chunk_text "   " 1000 200 = Some [""].
Proof. reflexivity. Qed.

Example chunk_id_example :
  chunk_id "0cc175b9c0f1b6a831c399e269772661" 12 0
  = "0cc175b9c0f1b6a831c399e269772661_page12_chunk0".
Proof. reflexivity. Qed.

Example getitem_example :
  Py.getitem [10; 20; 30]%Z (-1) = Ok 30%Z
  /\ Py.getitem [10; 20; 30]%Z 3 = Raise IndexError
  /\ Py.getitem [10; 20; 30]%Z (-4) = Raise IndexError.
Proof. repeat split. Qed.

Example slice_to_example :
  Py.slice_to [1; 2; 3; 4]%Z 2 = [1; 2]%Z
  /\ Py.slice_to [1; 2; 3; 4]%Z (-1) = [1; 2; 3]%Z
  /\ Py.slice_to [1; 2; 3; 4]%Z 10 = [1; 2; 3; 4]%Z.
Proof. repeat split. Qed.

(** A key set again keeps its place in the dict. *)
Example dict_set_example :
  Py.dict_set Z.eqb 1%Z "c" (Py.dict_set Z.eqb 2%Z "b"
                              (Py.dict_set Z.eqb 1%Z "a" []))
  = [(1%Z, "c"); (2%Z, "b")].
Proof. reflexivity. Qed.

Example vector_score_example :
  vector_score 0 = 1%float /\ vector_score 1 = 0.5%float
  /\ vector_score 3 = 0.25%float.
Proof. repeat split. Qed.

Example combined_score_example :
  combined_score 0.5 2 = 0.38%float
  /\ combined_score 0.5 0 = 0.3%float
  /\ combined_score 0.5 (-1) = 0.3%float.
Proof. repeat split. Qed.

(** The sort is descending and leaves entries of equal score in their
    order: here the keys 7 and 3 share the score 0.5. *)
Example sorted_by_score_example :
  let chunk := {| id := "d_page1_chunk0"; document_id := "d";
                  filename := "f.pdf"; page_number := 1; chunk_index := 0;
                  content := "text" |} in
  let entry score := {| sc_chunk := chunk; sc_score := score;
                        sc_vector_score := score; sc_bm25_score := 0 |} in
  map fst (sorted_by_score
             [(7%Z, entry 0.5%float); (5%Z, entry 0.25%float);
              (3%Z, entry 0.5%float); (9%Z, entry 0.75%float)])
  = [9; 7; 3; 5]%Z.
Proof. reflexivity. Qed.

(** The search of the instance: three candidates, sorted by combined score;
    with [top_k = 1] the first of them. *)
Example search_example :
  map fst (Demo.ranked_alpha None) = [0; 1; 2]%Z
  /\ map (fun kr => relevance_score (snd kr)) (Demo.ranked_alpha None)
     = [0.56000000000000005; 0.39999999999999997; 0.38]%float
  /\ option_map (map fst)
       (match @search_ranked Demo.library Demo.corpus_ab "alpha" 1 None with
        | Ok ranked => Some ranked
        | Raise _ => None
        end) = Some [0%Z].
Proof. repeat split; vm_compute; reflexivity. Qed.

(* ================================================================= *)
(** ** Strings and the chunker *)

Module PyStrFacts.

Import PyStr.

Lemma lstrip_all_space s : all_space s = true -> lstrip s = EmptyString.
Proof.
  induction s as [|c s IH]; simpl; [reflexivity|].
  intros H. apply andb_true_iff in H as [Hc Hs].
  rewrite Hc. auto.
Qed.

Lemma strip_all_space s : all_space s = true -> strip s = EmptyString.
Proof.
  intros H. unfold strip. rewrite lstrip_all_space by assumption.
  reflexivity.
Qed.

Lemma substring_length s start size :
  String.length (substring start size s)
  = Nat.min size (String.length s - start).
Proof.
  revert start size.
  induction s as [|c s IH]; intros [|start] [|size]; simpl;
    try reflexivity; try (rewrite IH; simpl; lia).
Qed.

End PyStrFacts.

Lemma chunk_loop_total fuel text chunk_size overlap start :
  (overlap < chunk_size)%nat ->
  (String.length text - start <= fuel)%nat ->
  exists ws, chunk_loop fuel text chunk_size overlap start = Some ws.
Proof.
  intros Hstep. revert start.
  induction fuel as [|fuel IH]; intros start Hfuel; simpl.
  - destruct (Nat.ltb_spec start (String.length text)); [lia|eauto].
  - destruct (Nat.ltb_spec start (String.length text)); [|eauto].
    destruct (IH (start + (chunk_size - overlap))%nat) as [ws Hws]; [lia|].
    rewrite Hws. simpl. eauto.
Qed.

(** With [overlap < chunk_size] the chunker returns. *)
Lemma chunk_windows_total text chunk_size overlap :
  (overlap < chunk_size)%nat ->
  exists ws, chunk_windows text chunk_size overlap = Some ws.
Proof.
  intros H. apply chunk_loop_total; [assumption|lia].
Qed.

(** With [chunk_size <= overlap] the offset never moves and no amount of fuel
    lets the loop stop on a non-empty text. *)
Lemma chunk_loop_diverges fuel text chunk_size overlap start :
  (chunk_size <= overlap)%nat ->
  (start < String.length text)%nat ->
  chunk_loop fuel text chunk_size overlap start = None.
Proof.
  intros Hstep Hlt.
  apply Nat.ltb_lt in Hlt.
  replace (chunk_size - overlap)%nat with 0%nat in * by lia.
  induction fuel as [|fuel IH]; simpl; rewrite Hlt; [reflexivity|].
  replace (chunk_size - overlap)%nat with 0%nat by lia.
  rewrite Nat.add_0_r, IH. reflexivity.
Qed.

Lemma _chunk_text_total text chunk_size overlap :
  (overlap < chunk_size)%nat ->
  exists cs, _chunk_text text chunk_size overlap = Some cs.
Proof.
  intros H. unfold _chunk_text.
  destruct (chunk_windows_total text chunk_size overlap H) as [ws ->].
  simpl. eauto.
Qed.

(** C5, as stated, fails: the windows of ["A" * 2500] are not three windows of
    1000, 1000 and 500 characters at offsets 0, 800 and 1600. *)
Lemma chunk_2500_is_not_three_chunks :
  option_map window_lengths (chunk_windows text_2500 1000 200)
  <> Some [(0, 1000); (800, 1000); (1600, 500)]%nat.
Proof.
  vm_compute. discriminate.
Qed.

(** C5, amended: chunking ["A" * 2500] with [chunk_size=1000] and
    [overlap=200] returns exactly four chunks, of lengths 1000, 1000, 900 and
    100, taken at the start offsets 0, 800, 1600 and 2400. *)
Theorem chunk_2500_four_chunks :
  option_map window_lengths (chunk_windows text_2500 1000 200)
  = Some [(0, 1000); (800, 1000); (1600, 900); (2400, 100)]%nat
  /\ option_map (map String.length) (_chunk_text text_2500 1000 200)
     = Some [1000; 1000; 900; 100]%nat.
Proof.
  split; vm_compute; reflexivity.
Qed.

(** The records of one page all carry its page number. *)
Lemma page_records_page_number doc_id fname page_num page_chunks c :
  In c (page_records doc_id fname page_num page_chunks) ->
  page_number c = page_num.
Proof.
  unfold page_records. intros H.
  apply in_map_iff in H as [[i t] [<- _]]. reflexivity.
Qed.

(** Text extraction returns: the chunker is called with [200 < 1000]. *)
Lemma extract_pages_total doc_id fname pages page_num acc :
  exists out, extract_pages doc_id fname pages page_num acc = Some out.
Proof.
  revert page_num acc.
  induction pages as [|[text|] rest IH]; intros page_num acc; simpl; eauto.
  destruct (PyStr.truthy (PyStr.strip text)); [|apply IH].
  destruct (_chunk_text_total text 1000 200) as [cs ->]; [lia|]. apply IH.
Qed.

(** A chunk of the result is an old one or was made for a page whose text
    does not strip to the empty string. *)
Lemma extract_pages_origin doc_id fname pages page_num acc out c :
  extract_pages doc_id fname pages page_num acc = Some out ->
  In c out ->
  In c acc
  \/ exists n text,
       nth_error pages n = Some (PageText text)
       /\ PyStr.truthy (PyStr.strip text) = true
       /\ page_number c = (page_num + n)%nat.
Proof.
  revert page_num acc.
  induction pages as [|[text|] rest IH]; intros page_num acc; simpl.
  - intros [= <-]. auto.
  - destruct (PyStr.truthy (PyStr.strip text)) eqn:Htext.
    + destruct (_chunk_text text 1000 200) as [cs|]; [|discriminate].
      intros Hrest Hin.
      destruct (IH _ _ Hrest Hin) as [Hacc | (n & t & Hn & Ht & Hp)].
      * apply in_app_or in Hacc as [Hacc | Hnew]; [auto|].
        right. exists 0%nat, text. repeat split; auto.
        rewrite (page_records_page_number _ _ _ _ _ Hnew). lia.
      * right. exists (S n), t. repeat split; auto. lia.
    + intros Hrest Hin.
      destruct (IH _ _ Hrest Hin) as [Hacc | (n & t & Hn & Ht & Hp)]; auto.
      right. exists (S n), t. repeat split; auto. lia.
  - intros [= <-]. auto.
Qed.

Section ExtractionProperties.

Context {lib : Libraries}.

Lemma _extract_and_chunk_pdf_total file_content doc_id fname :
  exists out, _extract_and_chunk_pdf file_content doc_id fname = Some out.
Proof.
  unfold _extract_and_chunk_pdf.
  destruct (PdfReader file_content); eauto using extract_pages_total.
Qed.

(** C8: a page whose text is empty or all whitespace gets no chunk record.
    Extraction returns, and no chunk of its result carries the number of such
    a page: the guard [if text.strip()] skips the page before the chunker is
    called.  On the empty text the chunker itself returns no chunk. *)
Theorem whitespace_page_yields_no_chunk
    file_content doc_id fname pages n text :
  PdfReader file_content = Ok pages ->
  nth_error pages n = Some (PageText text) ->
  PyStr.all_space text = true ->
  (exists out,
     _extract_and_chunk_pdf file_content doc_id fname = Some out
     /\ forall c, In c out -> page_number c <> S n)
  /\ _chunk_text EmptyString 1000 200 = Some [].
Proof.
  intros Hread Hpage Hspace. split; [|reflexivity].
  destruct (_extract_and_chunk_pdf_total file_content doc_id fname)
    as [out Hout].
  exists out. split; [assumption|].
  intros c Hin Hnum.
  unfold _extract_and_chunk_pdf in Hout. rewrite Hread in Hout.
  destruct (extract_pages_origin _ _ _ _ _ _ _ Hout Hin)
    as [[] | (m & t & Hm & Ht & Hp)].
  assert (m = n) by lia. subst m.
  rewrite Hpage in Hm. injection Hm as <-.
  rewrite (PyStrFacts.strip_all_space _ Hspace) in Ht. discriminate.
Qed.

End ExtractionProperties.

(* ================================================================= *)
(** ** Auxiliary facts *)

(** *** The order of binary64 *)

Module FloatOrder.



Lemma SFleb_of_not_ltb x y :
  sf_is_number x = true -> sf_is_number y = true ->
  SFltb x y = false -> SFleb y x = true.
Proof.
  unfold SFltb, SFleb.
  destruct x as [sx|sx| |sx mx ex], y as [sy|sy| |sy my ey];
    simpl; try discriminate; intros _ _; by_cases.
Qed.

Lemma is_number x : is_nan x = false -> sf_is_number (Prim2SF x) = true.
Proof.
  unfold is_nan. rewrite FloatAxioms.eqb_spec. unfold SFeqb.
  destruct (Prim2SF x); simpl; try reflexivity. discriminate.
Qed.



(** On numbers, "not below" is "at least". *)
Lemma leb_of_not_ltb x y :
  is_nan x = false -> is_nan y = false ->
  (x <? y)%float = false -> (y <=? x)%float = true.
Proof.
  intros Hx Hy. rewrite FloatAxioms.ltb_spec, FloatAxioms.leb_spec.
  apply SFleb_of_not_ltb; auto using is_number.
Qed.

End FloatOrder.

(** *** Subsequences *)

Lemma subseq_refl {A} (l : list A) : subseq l l.
Proof.
  induction l; auto.
Qed.


Lemma subseq_length {A} (l1 l2 : list A) :
  subseq l1 l2 -> (length l1 <= length l2)%nat.
Proof.
  induction 1; simpl; lia.
Qed.






Lemma subseq_cons_app {A} (x : A) l1 l2 :
  subseq l1 l2 -> subseq (x :: l1) (x :: l2).
Proof.
  auto.
Qed.

(** *** Dicts *)






Lemma dict_get_some_in {V} k (v : V) d :
  Py.dict_get Z.eqb k d = Some v -> In (k, v) d.
Proof.
  induction d as [|[k' v'] d IH]; simpl; [discriminate|].
  destruct (Z.eqb_spec k k') as [->|Hne]; [intros [= ->]|]; auto.
Qed.

(* ================================================================= *)
(** ** The hybrid search *)

(** *** The scoring loop *)

Lemma bind_ok {A B} (r : result A) (k : A -> result B) b :
  bind r k = Ok b -> exists a, r = Ok a /\ k a = Ok b.
Proof.
  destruct r; simpl; [eauto|discriminate].
Qed.







(** *** Retrieval order *)




Lemma StronglySorted_impl_in {A} (R R' : A -> A -> Prop) l :
  (forall a b, In a l -> In b l -> R a b -> R' a b) ->
  StronglySorted R l -> StronglySorted R' l.
Proof.
  induction l as [|x l IH]; intros Himpl Hs; [constructor|].
  inversion Hs; subst. constructor.
  - apply IH; [|assumption]. intros a b Ha Hb. apply Himpl; right; assumption.
  - rewrite Forall_forall in *. intros b Hb.
    apply Himpl; [left; reflexivity|right; assumption|auto].
Qed.


Lemma StronglySorted_map {A B} (f : A -> B) (R : B -> B -> Prop) l :
  StronglySorted (fun a b => R (f a) (f b)) l -> StronglySorted R (map f l).
Proof.
  induction 1 as [|x l Hs IH Hall]; simpl; constructor; [assumption|].
  rewrite Forall_forall in *. intros y Hy.
  apply in_map_iff in Hy as [z [<- Hz]]. auto.
Qed.


(** *** The sort *)





(** *** The filter loop *)

(** The loop returns the results it was given followed by the candidates it
    kept, in their order; every one of them passed the three filters. *)
Lemma filter_loop_spec filters top_k candidates acc out :
  filter_loop filters top_k candidates acc = Ok out ->
  exists kept,
    subseq kept candidates
    /\ out = acc ++ map annotate_item kept
    /\ Forall (fun x => keep_candidate filters (snd x) = Ok true) kept.
Proof.
  revert acc. induction candidates as [|[idx data] rest IH]; intros acc; simpl.
  - intros [= <-]. exists []. rewrite app_nil_r. auto using subseq_nil.
  - intros H. apply bind_ok in H as (keep & Hkeep & H).
    destruct keep.
    + destruct (top_k <=? Z.of_nat (length (acc ++ [(idx, annotate data)])))%Z.
      * injection H as <-. exists [(idx, data)].
        repeat split; auto using subseq_keep, subseq_nil.
      * destruct (IH _ H) as (kept & Hsub & -> & Hall).
        exists ((idx, data) :: kept).
        rewrite <- app_assoc. repeat split; auto using subseq_keep.
    + destruct (IH _ H) as (kept & Hsub & -> & Hall).
      exists kept. repeat split; auto using subseq_skip.
Qed.

(** The loop stops at [top_k] results. *)
Lemma filter_loop_length filters top_k candidates acc out :
  filter_loop filters top_k candidates acc = Ok out ->
  (Z.of_nat (length acc) < top_k)%Z ->
  (Z.of_nat (length out) <= top_k)%Z.
Proof.
  revert acc. induction candidates as [|[idx data] rest IH]; intros acc; simpl.
  - intros [= <-]. lia.
  - intros H Hlen. apply bind_ok in H as (keep & Hkeep & H).
    destruct keep; [|eauto].
    destruct (Z.leb_spec top_k
                (Z.of_nat (length (acc ++ [(idx, annotate data)])))).
    + injection H as <-. rewrite length_app in *. simpl in *. lia.
    + eauto.
Qed.

(** What a kept candidate satisfies, filter by filter. *)
Lemma keep_candidate_true filters data :
  keep_candidate filters data = Ok true ->
  (forall doc, filter_value filters document PyStr.truthy = Some doc ->
     filename (sc_chunk data) = doc)
  /\ (forall range,
        filter_value filters page_range list_truthy = Some range ->
        exists page_min page_max,
          Py.getitem range 0 = Ok page_min
          /\ Py.getitem range 1 = Ok page_max
          /\ (page_min <= Z.of_nat (page_number (sc_chunk data)) <= page_max)%Z)
  /\ (forall min_conf,
        filter_value filters min_confidence Py.float_truthy = Some min_conf ->
        (sc_score data <? min_conf)%float = false).
Proof.
  unfold keep_candidate. intros H.
  destruct (filter_value filters document PyStr.truthy) as [doc|] eqn:Hdoc.
  - destruct (String.eqb_spec (filename (sc_chunk data)) doc) as [Heq|Hne];
      simpl in H; [|discriminate].
    split; [intros ? [= <-]; assumption|].
    revert H. clear.
    destruct (filter_value filters page_range list_truthy) as [range|].
    + intros H. apply bind_ok in H as (rej & Hrej & H).
      apply bind_ok in Hrej as (pmin & Hmin & Hrej).
      apply bind_ok in Hrej as (pmax & Hmax & Hrej).
      injection Hrej as <-.
      destruct ((pmin <=? Z.of_nat (page_number (sc_chunk data)))
                && (Z.of_nat (page_number (sc_chunk data)) <=? pmax))%Z
        eqn:Hin; simpl in H; [|discriminate].
      apply andb_true_iff in Hin as [H1 H2].
      apply Z.leb_le in H1. apply Z.leb_le in H2.
      split; [intros ? [= <-]; exists pmin, pmax; auto|].
      destruct (filter_value filters min_confidence Py.float_truthy);
        [|intros ? [=]].
      intros ? [= <-].
      destruct (sc_score data <? f)%float; [discriminate|reflexivity].
    + simpl. intros H. split; [intros ? [=]|].
      destruct (filter_value filters min_confidence Py.float_truthy);
        [|intros ? [=]].
      intros ? [= <-].
      destruct (sc_score data <? f)%float; [discriminate|reflexivity].
  - split; [intros ? [=]|].
    revert H. clear.
    destruct (filter_value filters page_range list_truthy) as [range|].
    + intros H. apply bind_ok in H as (rej & Hrej & H).
      apply bind_ok in Hrej as (pmin & Hmin & Hrej).
      apply bind_ok in Hrej as (pmax & Hmax & Hrej).
      injection Hrej as <-.
      destruct ((pmin <=? Z.of_nat (page_number (sc_chunk data)))
                && (Z.of_nat (page_number (sc_chunk data)) <=? pmax))%Z
        eqn:Hin; simpl in H; [|discriminate].
      apply andb_true_iff in Hin as [H1 H2].
      apply Z.leb_le in H1. apply Z.leb_le in H2.
      split; [intros ? [= <-]; exists pmin, pmax; auto|].
      destruct (filter_value filters min_confidence Py.float_truthy);
        [|intros ? [=]].
      intros ? [= <-].
      destruct (sc_score data <? f)%float; [discriminate|reflexivity].
    + simpl. intros H. split; [intros ? [=]|].
      destruct (filter_value filters min_confidence Py.float_truthy);
        [|intros ? [=]].
      intros ? [= <-].
      destruct (sc_score data <? f)%float; [discriminate|reflexivity].
Qed.



(** *** [search_documents] *)

Lemma keep_candidate_same f1 f2 data :
  same_filters f1 f2 -> keep_candidate f1 data = keep_candidate f2 data.
Proof.
  intros (Hd & Hp & Hc). unfold keep_candidate. rewrite Hd, Hp, Hc. reflexivity.
Qed.

Lemma filter_loop_same f1 f2 top_k candidates acc :
  same_filters f1 f2 ->
  filter_loop f1 top_k candidates acc = filter_loop f2 top_k candidates acc.
Proof.
  intros Hsame. revert acc.
  induction candidates as [|[idx data] rest IH]; intros acc; simpl; auto.
  rewrite (keep_candidate_same f1 f2 data Hsame).
  destruct (keep_candidate f2 data) as [[|]|]; simpl; auto.
  destruct (top_k <=? _)%Z; auto.
Qed.

Section SearchProperties.

Context {lib : Libraries}.

Lemma search_documents_same s query top_k f1 f2 :
  same_filters f1 f2 ->
  search_documents s query top_k f1 = search_documents s query top_k f2.
Proof.
  intros Hsame. unfold search_documents, search_ranked.
  destruct (ntotal (index s) =? 0)%nat; [reflexivity|].
  destruct (combined_results s query top_k); simpl; [|reflexivity].
  rewrite (filter_loop_same f1 f2) by assumption. reflexivity.
Qed.

(** What a search over a non-empty index went through. *)
Lemma search_ranked_inv s query top_k filters ranked :
  search_ranked s query top_k filters = Ok ranked ->
  ntotal (index s) <> 0%nat ->
  exists hits bm25_scores combined kept,
    vector_hits s query top_k = Ok hits
    /\ keyword_scores s query = Ok bm25_scores
    /\ combined_results s query top_k = Ok combined
    /\ score_hits (chunks s) bm25_scores hits [] = Ok combined
    /\ subseq kept (Py.slice_to (sorted_by_score combined) (top_k * 2))
    /\ ranked = map annotate_item kept
    /\ Forall (fun x => keep_candidate filters (snd x) = Ok true) kept.
Proof.
  unfold search_ranked. intros H Hne.
  apply Nat.eqb_neq in Hne. rewrite Hne in H.
  apply bind_ok in H as (combined & Hcombined & H).
  assert (Hc := Hcombined). unfold combined_results in Hc.
  apply bind_ok in Hc as (hits & Hhits & Hc).
  apply bind_ok in Hc as (bm & Hbm & Hc).
  apply filter_loop_spec in H as (kept & Hsub & -> & Hall).
  exists hits, bm, combined, kept. simpl. auto 10.
Qed.

Lemma search_ranked_empty s query top_k filters :
  ntotal (index s) = 0%nat -> search_ranked s query top_k filters = Ok [].
Proof.
  intros H. unfold search_ranked. rewrite H. reflexivity.
Qed.

Lemma search_documents_ranked s query top_k filters results :
  search_documents s query top_k filters = Ok results ->
  exists ranked,
    search_ranked s query top_k filters = Ok ranked
    /\ results = map snd ranked.
Proof.
  unfold search_documents. intros H.
  apply bind_ok in H as (ranked & Hr & [= <-]). eauto.
Qed.

(** C6: on an index with no vector, [search_documents] returns the empty list
    at once, whatever the query, [top_k] and the filters; it does not raise. *)
Theorem search_on_empty_index s query top_k filters :
  ntotal (index s) = 0%nat ->
  search_documents s query top_k filters = Ok [].
Proof.
  intros H. unfold search_documents.
  rewrite search_ranked_empty by assumption. reflexivity.
Qed.

(** C10: a filter is applied only when its value is truthy.  A
    [min_confidence] of [0.0] and a [document] that is the empty string give
    the results of a call without that filter, next to any other filters and
    alone. *)
Theorem falsy_filter_is_no_filter s query top_k doc range conf :
  search_documents s query top_k
    (Some {| document := doc; page_range := range;
             min_confidence := Some 0%float |})
  = search_documents s query top_k
      (Some {| document := doc; page_range := range;
               min_confidence := None |})
  /\ search_documents s query top_k
       (Some {| document := Some EmptyString; page_range := range;
                min_confidence := conf |})
     = search_documents s query top_k
         (Some {| document := None; page_range := range;
                  min_confidence := conf |})
  /\ search_documents s query top_k
       (Some {| document := None; page_range := None;
                min_confidence := Some 0%float |})
     = search_documents s query top_k None
  /\ search_documents s query top_k
       (Some {| document := Some EmptyString; page_range := None;
                min_confidence := None |})
     = search_documents s query top_k None.
Proof.
  repeat split; apply search_documents_same; repeat split; simpl;
    try reflexivity; destruct doc as [[|]|], range as [[|]|], conf as [c|];
    simpl; try reflexivity.
Qed.


Lemma getitem_nth {A} (l : list A) (i : Z) a :
  (0 <= i)%Z -> nth_error l (Z.to_nat i) = Some a -> Py.getitem l i = Ok a.
Proof.
  intros Hi Hnth. unfold Py.getitem.
  assert (Hlen : (Z.to_nat i < length l)%nat).
  { apply nth_error_Some. congruence. }
  destruct (Z.ltb_spec i 0); [lia|].
  destruct (Z.leb_spec 0 i); [|lia].
  destruct (Z.ltb_spec i (Z.of_nat (length l))); [|lia].
  simpl. rewrite Hnth. reflexivity.
Qed.

Lemma getitem_first {A} (x : A) l : Py.getitem (x :: l) 0 = Ok x.
Proof.
  apply getitem_nth; [lia|reflexivity].
Qed.

Lemma getitem_second {A} (x y : A) l : Py.getitem (x :: y :: l) 1 = Ok y.
Proof.
  apply getitem_nth; [lia|reflexivity].
Qed.





(** C4, amended: every filter whose value is truthy holds of every returned
    chunk.  With a [document] filter that is not the empty string every
    returned chunk has that filename; with a [page_range] filter
    [[min, max]] every returned chunk's page number lies between [min] and
    [max], bounds included; with a [min_confidence] filter that is not zero no
    returned chunk has a combined score below it. *)
Theorem truthy_filters_hold_of_results s query top_k f results :
  search_documents s query top_k (Some f) = Ok results ->
  (forall doc,
     document f = Some doc -> doc <> EmptyString ->
     Forall (fun r => filename (rc_chunk r) = doc) results)
  /\ (forall page_min page_max rest,
        page_range f = Some (page_min :: page_max :: rest) ->
        Forall (fun r =>
                  (page_min <= Z.of_nat (page_number (rc_chunk r))
                   <= page_max)%Z) results)
  /\ (forall min_conf,
        min_confidence f = Some min_conf ->
        (min_conf =? 0)%float = false ->
        Forall (fun r =>
                  (relevance_score r <? min_conf)%float = false
                  /\ (is_nan min_conf = false ->
                      is_nan (relevance_score r) = false ->
                      (min_conf <=? relevance_score r)%float = true))
               results).
Proof.
  intros H. apply search_documents_ranked in H as (ranked & Hranked & ->).
  assert (Hkept : exists kept,
             ranked = map annotate_item kept
             /\ Forall (fun x => keep_candidate (Some f) (snd x) = Ok true)
                  kept).
  { destruct (Nat.eq_dec (ntotal (index s)) 0) as [Hzero|Hne].
    - rewrite search_ranked_empty in Hranked by assumption.
      injection Hranked as <-. exists []. auto.
    - destruct (search_ranked_inv _ _ _ _ _ Hranked Hne)
        as (_ & _ & _ & kept & _ & _ & _ & _ & _ & -> & Hall). eauto. }
  destruct Hkept as (kept & -> & Hall). clear Hranked.
  rewrite Forall_forall in Hall.
  repeat split.
  - intros doc Hdoc Hne. apply Forall_forall. intros r Hr.
    apply in_map_iff in Hr as [[k' r'] [<- Hr]].
    apply in_map_iff in Hr as [[k data] [[= <- <-] Hin]]. simpl.
    destruct (keep_candidate_true _ _ (Hall _ Hin)) as (Hd & _ & _).
    apply Hd. simpl. rewrite Hdoc.
    destruct doc; [contradiction|reflexivity].
  - intros pmin pmax rest Hrange. apply Forall_forall. intros r Hr.
    apply in_map_iff in Hr as [[k' r'] [<- Hr]].
    apply in_map_iff in Hr as [[k data] [[= <- <-] Hin]]. simpl.
    destruct (keep_candidate_true _ _ (Hall _ Hin)) as (_ & Hp & _).
    destruct (Hp (pmin :: pmax :: rest)) as (a & b & Ha & Hb & Hab).
    { simpl. rewrite Hrange. reflexivity. }
    rewrite getitem_first in Ha. rewrite getitem_second in Hb.
    injection Ha as <-. injection Hb as <-. exact Hab.
  - intros min_conf Hconf Htruthy. apply Forall_forall. intros r Hr.
    apply in_map_iff in Hr as [[k' r'] [<- Hr]].
    apply in_map_iff in Hr as [[k data] [[= <- <-] Hin]]. simpl.
    destruct (keep_candidate_true _ _ (Hall _ Hin)) as (_ & _ & Hc).
    assert (Hlt : (sc_score data <? min_conf)%float = false).
    { apply Hc. simpl. rewrite Hconf. unfold Py.float_truthy.
      rewrite Htruthy. reflexivity. }
    split; [assumption|].
    intros Hn1 Hn2. apply FloatOrder.leb_of_not_ltb; assumption.
Qed.

Lemma search_ranked_length s query top_k filters ranked :
  (0 <= top_k)%Z ->
  search_ranked s query top_k filters = Ok ranked ->
  (Z.of_nat (length ranked) <= top_k)%Z.
Proof.
  intros Hk. unfold search_ranked.
  destruct (ntotal (index s) =? 0)%nat; [intros [= <-]; simpl; lia|].
  intros H. apply bind_ok in H as (combined & _ & H).
  destruct (Z.eq_dec top_k 0) as [->|Hne].
  - simpl in H. injection H as <-. simpl. lia.
  - apply filter_loop_length in H; simpl; lia.
Qed.


End SearchProperties.

(* ================================================================= *)
(** ** Ingestion *)

(** *** Chunk ids *)

Lemma string_of_uint_digits d : all_digits (NilEmpty.string_of_uint d) = true.
Proof.
  induction d; simpl; auto.
Qed.

Lemma str_of_nat_inj n m : str_of_nat n = str_of_nat m -> n = m.
Proof.
  unfold str_of_nat. intros H.
  apply Unsigned.to_uint_inj.
  assert (Hs : Some (Nat.to_uint n) = Some (Nat.to_uint m)).
  { rewrite <- !NilEmpty.usu. rewrite H. reflexivity. }
  congruence.
Qed.

(** Two strings with prefixes of one length are equal part by part. *)
Lemma append_inj_length a b x y :
  (a ++ x)%string = (b ++ y)%string ->
  String.length a = String.length b ->
  a = b /\ x = y.
Proof.
  revert b. induction a as [|c a IH]; intros [|c' b]; simpl;
    try discriminate; auto.
  intros [= -> H] [= Hlen]. destruct (IH _ H Hlen) as [-> ->]. auto.
Qed.

(** A run of digits ends at the first underscore. *)
Lemma digits_then_underscore a b x y :
  all_digits a = true -> all_digits b = true ->
  (a ++ String "_" x)%string = (b ++ String "_" y)%string ->
  a = b /\ x = y.
Proof.
  revert b. induction a as [|c a IH]; intros [|c' b]; simpl.
  - intros _ _ [= ->]. auto.
  - intros _ Hb [= <- _]. discriminate.
  - intros Ha _ [= -> _]. discriminate.
  - intros Ha Hb [= -> H].
    apply andb_true_iff in Ha as [_ Ha]. apply andb_true_iff in Hb as [_ Hb].
    destruct (IH _ Ha Hb H) as [-> ->]. auto.
Qed.

(** The id determines the document id, the page and the chunk index, among
    document ids of one length. *)
Lemma chunk_id_inj d1 p1 i1 d2 p2 i2 :
  chunk_id d1 p1 i1 = chunk_id d2 p2 i2 ->
  String.length d1 = String.length d2 ->
  d1 = d2 /\ p1 = p2 /\ i1 = i2.
Proof.
  unfold chunk_id. intros H Hlen.
  apply append_inj_length in H as [-> H]; [|assumption].
  split; [reflexivity|].
  simpl in H. injection H as H.
  apply digits_then_underscore in H as [Hp H];
    [|apply string_of_uint_digits..].
  injection H as H.
  split; apply str_of_nat_inj; assumption.
Qed.

Lemma map_fst_combine_seq {A} (l : list A) start :
  map fst (combine (seq start (length l)) l) = seq start (length l).
Proof.
  revert start. induction l as [|x l IH]; intros start; simpl; [reflexivity|].
  rewrite IH. reflexivity.
Qed.

Lemma page_records_places doc_id fname page_num page_chunks :
  map chunk_place (page_records doc_id fname page_num page_chunks)
  = map (fun i => (page_num, i)) (seq 0 (length page_chunks)).
Proof.
  unfold page_records. rewrite map_map.
  rewrite <- (map_fst_combine_seq page_chunks 0) at 2.
  rewrite map_map. apply map_ext. intros [i t]. reflexivity.
Qed.

Lemma page_records_well_named doc_id fname page_num page_chunks c :
  In c (page_records doc_id fname page_num page_chunks) ->
  well_named doc_id c.
Proof.
  unfold page_records. intros H.
  apply in_map_iff in H as [[i t] [<- _]]. split; reflexivity.
Qed.

(** The chunks one extraction adds: all of the document, named after their
    place, at pages from [page_num] on, no place twice. *)
Lemma extract_pages_added doc_id fname pages page_num acc out :
  extract_pages doc_id fname pages page_num acc = Some out ->
  exists added,
    out = acc ++ added
    /\ Forall (well_named doc_id) added
    /\ Forall (fun c => (page_num <= page_number c)%nat) added
    /\ NoDup (map chunk_place added).
Proof.
  revert page_num acc.
  induction pages as [|[text|] rest IH]; intros page_num acc; simpl.
  - intros [= <-]. exists []. rewrite app_nil_r.
    repeat split; constructor.
  - destruct (PyStr.truthy (PyStr.strip text)).
    + destruct (_chunk_text text 1000 200) as [cs|]; [|discriminate].
      intros H. destruct (IH _ _ H) as (added & -> & Hnamed & Hpages & Hnd).
      exists (page_records doc_id fname page_num cs ++ added).
      rewrite app_assoc. split; [reflexivity|].
      split; [|split].
      * apply Forall_app. split; [|assumption].
        apply Forall_forall. intros c. apply page_records_well_named.
      * apply Forall_app. split.
        -- apply Forall_forall. intros c Hc.
           rewrite (page_records_page_number _ _ _ _ _ Hc). lia.
        -- eapply Forall_impl; [|exact Hpages]. simpl. intros c. lia.
      * rewrite map_app. apply NoDup_app; [| assumption |].
        -- rewrite page_records_places.
           apply Injective_map_NoDup; [|apply seq_NoDup].
           intros i j [= ->]. reflexivity.
        -- intros place Hold Hnew.
           apply in_map_iff in Hold as [c [<- Hc]].
           apply in_map_iff in Hnew as [c' [Heq Hc']].
           rewrite Forall_forall in Hpages. apply Hpages in Hc'.
           apply page_records_page_number in Hc.
           unfold chunk_place in Heq. injection Heq as Hp _. lia.
    + intros H. destruct (IH _ _ H) as (added & -> & Hnamed & Hpages & Hnd).
      exists added. repeat split; auto.
      eapply Forall_impl; [|exact Hpages]. simpl. intros c. lia.
  - intros [= <-]. exists []. rewrite app_nil_r.
    repeat split; constructor.
Qed.

(** *** [process_document] *)

Section IngestionProperties.

Context {lib : Libraries}.

Lemma _build_bm25_index_frame s s' r :
  _build_bm25_index s = (s', r) ->
  index s' = index s /\ chunks s' = chunks s /\ documents s' = documents s.
Proof.
  unfold _build_bm25_index.
  destruct (Py.is_nil (chunks s)); [intros [= <- <-]; auto|].
  destruct (BM25Okapi _); intros [= <- <-]; auto.
Qed.

Lemma _build_bm25_index_tokenized s s' u :
  _build_bm25_index s = (s', Ok u) ->
  chunks s <> [] ->
  length (tokenized_chunks s') = length (chunks s') /\ bm25 s' <> None.
Proof.
  unfold _build_bm25_index. intros H Hne.
  destruct (chunks s) eqn:Hchunks; [contradiction|]. simpl in H.
  destruct (BM25Okapi _); [|discriminate].
  injection H as <- _. simpl. rewrite length_map.
  split; [reflexivity|discriminate].
Qed.

Lemma index_add_ntotal ix rows ix' :
  index_add ix rows = Ok ix' ->
  ntotal ix' = (ntotal ix + length rows)%nat.
Proof.
  unfold index_add. destruct (forallb _ rows); [|discriminate].
  intros [= <-]. unfold ntotal. simpl. apply length_app.
Qed.

(** What a call does to the chunk list and to the vector index: nothing, or
    it appends the chunks extracted from the file and as many rows as the
    embedding model returned for them. *)
Lemma process_document_effect s disk file s' disk' r :
  process_document s disk file = Some (s', disk', r) ->
  exists text_chunks,
    _extract_and_chunk_pdf (upload_content file)
      (md5_hexdigest (upload_filename file)) (upload_filename file)
    = Some text_chunks
    /\ ((chunks s' = chunks s /\ index s' = index s /\ ~ stored r)
        \/ (exists rows,
              text_chunks <> []
              /\ encode (map content text_chunks) = Ok rows
              /\ chunks s' = chunks s ++ text_chunks
              /\ ntotal (index s') = (ntotal (index s) + length rows)%nat
              /\ (stored r ->
                  length (tokenized_chunks s') = length (chunks s')))).
Proof.
  unfold process_document.
  destruct (write_upload file) as [written|e].
  2:{ intros [= <- _ <-].
      destruct (_extract_and_chunk_pdf_total (upload_content file)
                  (md5_hexdigest (upload_filename file))
                  (upload_filename file)) as [tc Htc].
      exists tc. split; [assumption|]. left. repeat split.
      intros (resp & [=] & _). }
  destruct (_extract_and_chunk_pdf _ _ _) as [text_chunks|]; [|discriminate].
  intros H. exists text_chunks. split; [reflexivity|].
  injection H as H.
  destruct text_chunks as [|c0 cs] eqn:Htc.
  { simpl in H. injection H as <- _ <-. left. repeat split.
    intros (resp & [= <-] & Herr). discriminate. }
  rewrite <- Htc in *. assert (Hne : text_chunks <> []) by (subst; discriminate).
  replace (Py.is_nil text_chunks) with false in H by (subst; reflexivity).
  clear Htc c0 cs.
  destruct (encode (map content text_chunks)) as [rows|e] eqn:Henc.
  2:{ injection H as <- _ <-. left. repeat split.
      intros (resp & [=] & _). }
  destruct (index_add (index s) rows) as [ix|e] eqn:Hadd.
  2:{ injection H as <- _ <-. left. repeat split.
      intros (resp & [=] & _). }
  apply index_add_ntotal in Hadd.
  destruct (_build_bm25_index _) as [s2 [u|e]] eqn:Hbuild.
  - injection H as <- _ <-. simpl.
    destruct (_build_bm25_index_frame _ _ _ Hbuild) as (Hix & Hch & _).
    destruct (_build_bm25_index_tokenized _ _ _ Hbuild) as [Htok _].
    { simpl. destruct (chunks s); destruct text_chunks; simpl; congruence. }
    simpl in *. right. exists rows. rewrite Hix, Hch. rewrite Hch in Htok.
    repeat split; auto.
  - injection H as <- _ <-.
    destruct (_build_bm25_index_frame _ _ _ Hbuild) as (Hix & Hch & _).
    simpl in *. right. exists rows. rewrite Hix, Hch.
    repeat split; auto. intros (resp & [=] & _).
Qed.

(** Over an empty upload directory the constructor leaves the fields as
    they were set. *)
Lemma init_empty_disk : init empty_disk = Ok (fresh, empty_disk).
Proof.
  reflexivity.
Qed.


(** The two counts move together in every call, whatever its outcome. *)
Lemma process_document_keeps_counts s disk file s' disk' r :
  encode_row_per_text ->
  vector_count s = length (chunks s) ->
  process_document s disk file = Some (s', disk', r) ->
  vector_count s' = length (chunks s').
Proof.
  intros Henc Hinv H.
  destruct (process_document_effect _ _ _ _ _ _ H)
    as (tc & _ & [(Hc & Hi & _)|(rows & _ & Hrows & Hc & Hn & _)]);
    unfold vector_count in *.
  - rewrite Hc, Hi. assumption.
  - rewrite Hn, Hc, length_app, Hinv.
    rewrite (Henc _ _ Hrows), length_map. reflexivity.
Qed.

(** From an empty upload directory on, the index holds one vector per
    chunk. *)
Lemma ingested_counts ids s :
  encode_row_per_text -> ingested ids s ->
  vector_count s = length (chunks s).
Proof.
  intros Henc. induction 1; [reflexivity|].
  eapply process_document_keeps_counts; eassumption.
Qed.

(** [process_document] returns. *)
Lemma process_document_returns s disk file :
  exists out, process_document s disk file = Some out.
Proof.
  unfold process_document.
  destruct (write_upload file); [|eauto].
  destruct (_extract_and_chunk_pdf_total (upload_content file)
              (md5_hexdigest (upload_filename file)) (upload_filename file))
    as [tc ->].
  eauto.
Qed.

(** C1, amended: after a successful ingestion of a file that yields at least
    one chunk, the keyword index has one token list per chunk, and the vector
    index has one vector per chunk provided it had before the call, as it has
    in every state reached from an empty upload directory. *)
Theorem ingestion_keeps_the_counts s disk file s' disk' resp :
  encode_row_per_text ->
  process_document s disk file = Some (s', disk', Ok resp) ->
  resp_error resp = None ->
  (0 < resp_chunks_count resp)%nat
  /\ length (chunks s') = length (tokenized_chunks s')
  /\ (vector_count s = length (chunks s) ->
      vector_count s' = length (chunks s')
      /\ vector_count s' = length (tokenized_chunks s'))
  /\ (forall ids, ingested ids s ->
      vector_count s' = length (chunks s')
      /\ vector_count s' = length (tokenized_chunks s')).
Proof.
  intros Henc H Herr.
  assert (Hstored : stored (Ok resp)) by (exists resp; auto).
  destruct (process_document_effect _ _ _ _ _ _ H)
    as (tc & Htc & [(_ & _ & Hno)|(rows & Hne & Hrows & Hc & Hn & Htok)]);
    [contradiction|].
  specialize (Htok Hstored).
  assert (Hcount : (0 < resp_chunks_count resp)%nat).
  { unfold process_document in H.
    destruct (write_upload file); [|discriminate]. rewrite Htc in H.
    destruct tc as [|c0 cs]; [contradiction|]. simpl in H, Hrows.
    rewrite Hrows in H.
    destruct (index_add (index s) rows); [|discriminate].
    destruct (_build_bm25_index _) as [s2 [u|e]]; [|discriminate].
    injection H as _ _ <-. simpl. lia. }
  assert (Hkeep : vector_count s = length (chunks s) ->
                  vector_count s' = length (chunks s')
                  /\ vector_count s' = length (tokenized_chunks s')).
  { intros Hinv.
    assert (vector_count s' = length (chunks s')).
    { eapply process_document_keeps_counts; eassumption. }
    split; congruence. }
  split; [assumption|]. split; [congruence|]. split; [assumption|].
  intros ids Hids. apply Hkeep. eapply ingested_counts; eassumption.
Qed.

Lemma _extract_and_chunk_pdf_added file_content doc_id fname text_chunks :
  _extract_and_chunk_pdf file_content doc_id fname = Some text_chunks ->
  Forall (well_named doc_id) text_chunks
  /\ NoDup (map chunk_place text_chunks).
Proof.
  unfold _extract_and_chunk_pdf.
  destruct (PdfReader file_content) as [pages|e].
  - intros H. apply extract_pages_added in H as (added & -> & Hn & _ & Hnd).
    simpl. auto.
  - intros [= <-]. split; constructor.
Qed.

(** The chunks of one call have different ids. *)
Lemma _extract_and_chunk_pdf_ids file_content doc_id fname text_chunks :
  _extract_and_chunk_pdf file_content doc_id fname = Some text_chunks ->
  NoDup (map id text_chunks).
Proof.
  intros H. apply _extract_and_chunk_pdf_added in H as [Hnamed Hnd].
  replace (map id text_chunks)
    with (map (fun place => chunk_id doc_id (fst place) (snd place))
              (map chunk_place text_chunks)).
  - apply Injective_map_NoDup; [|assumption].
    intros [p i] [p' i'] Heq. simpl in Heq.
    apply chunk_id_inj in Heq as (_ & -> & ->); reflexivity.
  - rewrite map_map. apply map_ext_in. intros c Hc.
    rewrite Forall_forall in Hnamed. destruct (Hnamed c Hc) as [_ ->].
    reflexivity.
Qed.

(** Every chunk of the corpus belongs to an ingested document and is named
    after its document id, page and chunk index. *)
Lemma ingested_well_named ids s :
  ingested ids s ->
  Forall (fun c => In (document_id c) ids /\ well_named (document_id c) c)
    (chunks s).
Proof.
  induction 1 as [|ids s disk file s' disk' r Hing IH Hcall]; [constructor|].
  destruct (process_document_effect _ _ _ _ _ _ Hcall)
    as (tc & Htc & [(Hc & _)|(rows & _ & _ & Hc & _)]); rewrite Hc.
  - eapply Forall_impl; [|exact IH]. simpl. intros c [Hin Hn].
    split; [apply in_or_app; auto|assumption].
  - apply Forall_app. split.
    + eapply Forall_impl; [|exact IH]. simpl. intros c [Hin Hn].
      split; [apply in_or_app; auto|assumption].
    + apply _extract_and_chunk_pdf_added in Htc as [Hnamed _].
      eapply Forall_impl; [|exact Hnamed]. simpl. intros c Hn.
      assert (Hd : document_id c = md5_hexdigest (upload_filename file))
        by apply Hn.
      rewrite Hd. split; [apply in_or_app; right; left; reflexivity|assumption].
Qed.

(** C9, amended: the id of every chunk is
    [f"{document_id}_page{page_number}_chunk{chunk_index}"], a function of the
    document id, the page number and the chunk index that takes different
    values on different triples (for document ids of one length).  The chunk
    ids of a corpus are all different when no document id was ingested twice
    (and the ids are 32 characters, as MD5 digests in hexadecimal are). *)
Theorem chunk_ids_unique_for_distinct_documents ids s :
  ingested ids s ->
  Forall (fun c =>
            id c = chunk_id (document_id c) (page_number c) (chunk_index c))
         (chunks s)
  /\ (forall d1 p1 i1 d2 p2 i2,
        String.length d1 = String.length d2 ->
        chunk_id d1 p1 i1 = chunk_id d2 p2 i2 ->
        d1 = d2 /\ p1 = p2 /\ i1 = i2)
  /\ (NoDup ids ->
      Forall (fun d => String.length d = 32%nat) ids ->
      NoDup (map id (chunks s))).
Proof.
  intros Hing. split; [|split].
  - eapply Forall_impl; [|exact (ingested_well_named _ _ Hing)].
    simpl. intros c [_ [_ H]]. exact H.
  - intros d1 p1 i1 d2 p2 i2 Hlen Heq. apply chunk_id_inj; assumption.
  - induction Hing as [|ids s disk file s' disk' r Hing IH Hcall];
      [constructor|].
    intros Hnd Hlen.
    assert (Hnd' : NoDup ids) by (apply NoDup_app_remove_r in Hnd; exact Hnd).
    assert (Hnew : ~ In (md5_hexdigest (upload_filename file)) ids).
    { intros Hin. apply NoDup_remove_2 in Hnd. apply Hnd.
      rewrite app_nil_r. exact Hin. }
    apply Forall_app in Hlen as [Hlen Hlen_new].
    specialize (IH Hnd' Hlen).
    destruct (process_document_effect _ _ _ _ _ _ Hcall)
      as (tc & Htc & [(Hc & _)|(rows & _ & _ & Hc & _)]); rewrite Hc;
      [assumption|].
    rewrite map_app. apply NoDup_app; [assumption| |].
    + eapply _extract_and_chunk_pdf_ids. exact Htc.
    + intros x Hold Hx.
      apply in_map_iff in Hold as [c [<- Hc1]].
      apply in_map_iff in Hx as [c' [Heq Hc2]].
      assert (Hwn := ingested_well_named _ _ Hing).
      rewrite Forall_forall in Hwn. destruct (Hwn c Hc1) as [Hin [_ Hid]].
      apply _extract_and_chunk_pdf_added in Htc as [Hnamed _].
      rewrite Forall_forall in Hnamed. destruct (Hnamed c' Hc2) as [_ Hid'].
      rewrite Hid, Hid' in Heq.
      apply chunk_id_inj in Heq as (Hd & _).
      * apply Hnew. rewrite Hd. exact Hin.
      * inversion Hlen_new; subst.
        rewrite Forall_forall in Hlen. rewrite (Hlen _ Hin). congruence.
Qed.

End IngestionProperties.

(* ================================================================= *)
(** ** Score fusion and the distance *)

(** The code evaluates the expression in binary64. *)
Lemma combined_score_is_fusion dist b :
  combined_score (vector_score dist) b
  = fusion float PrimFloat.add PrimFloat.mul PrimFloat.div
      (fun x => (0 <? x)%float) 0%float 1%float 10%float 0.6%float 0.4%float
      dist b.
Proof.
  reflexivity.
Qed.





(* ================================================================= *)
(** ** The theorems at the small instance *)

Lemma whitespace_page_witness :
  (exists out,
     @_extract_and_chunk_pdf Demo.library "alpha beta|   |gamma" "doc" "A.pdf"
     = Some out
     /\ forall c, In c out -> page_number c <> 2%nat)
  /\ _chunk_text EmptyString 1000 200 = Some [].
Proof.
  apply (@whitespace_page_yields_no_chunk Demo.library
           "alpha beta|   |gamma" "doc" "A.pdf"
           [PageText "alpha beta"; PageText "   "; PageText "gamma"]
           1 "   "); reflexivity.
Defined.

Lemma search_on_empty_index_witness :
  ntotal (index (@fresh Demo.library)) = 0%nat
  /\ @search_documents Demo.library fresh "alpha" 5 None = Ok [].
Proof.
  split; [reflexivity|].
  apply (@search_on_empty_index Demo.library); reflexivity.
Defined.

Lemma demo_encode_row_per_text : @encode_row_per_text Demo.library.
Proof.
  intros texts rows H. simpl in H. injection H as <-. apply length_map.
Defined.

Lemma demo_first_call :
  @process_document Demo.library fresh empty_disk Demo.file_a
  = Some (Demo.corpus_a, snd (Demo.ingest Demo.start Demo.file_a),
          Ok Demo.response_a).
Proof.
  vm_compute. reflexivity.
Defined.

Lemma demo_second_call :
  @process_document Demo.library Demo.corpus_a
    (snd (Demo.ingest Demo.start Demo.file_a)) Demo.file_b
  = Some (Demo.corpus_ab,
          snd (fold_left Demo.ingest [Demo.file_a; Demo.file_b] Demo.start),
          Ok Demo.response_b).
Proof.
  vm_compute. reflexivity.
Defined.

Lemma demo_repeated_call :
  @process_document Demo.library Demo.corpus_a
    (snd (Demo.ingest Demo.start Demo.file_a)) Demo.file_a
  = Some (Demo.corpus_aa,
          snd (fold_left Demo.ingest [Demo.file_a; Demo.file_a] Demo.start),
          Ok Demo.response_a).
Proof.
  vm_compute. reflexivity.
Defined.

Lemma demo_ingested :
  @ingested Demo.library [Demo.digest "A.pdf"; Demo.digest "B.pdf"]
    Demo.corpus_ab.
Proof.
  apply (@ingested_call Demo.library [Demo.digest "A.pdf"] _ _ Demo.file_b
           _ _ _) with (2 := demo_second_call).
  apply (@ingested_call Demo.library [] _ _ Demo.file_a _ _ _)
    with (2 := demo_first_call).
  constructor.
Defined.

Lemma demo_ingested_twice :
  @ingested Demo.library [Demo.digest "A.pdf"; Demo.digest "A.pdf"]
    Demo.corpus_aa.
Proof.
  apply (@ingested_call Demo.library [Demo.digest "A.pdf"] _ _ Demo.file_a
           _ _ _) with (2 := demo_repeated_call).
  apply (@ingested_call Demo.library [] _ _ Demo.file_a _ _ _)
    with (2 := demo_first_call).
  constructor.
Defined.

(** C1, as stated, fails: over an upload directory that holds a vector index
    and no chunk file, the processor starts with one vector and no chunk, and
    a successful ingestion of a file of two chunks leaves three vectors and
    two chunks. *)
Lemma ingestion_after_partial_load :
  exists s0 disk0 s1 disk1 resp,
    @init Demo.library Demo.index_only = Ok (s0, disk0)
    /\ @process_document Demo.library s0 disk0 Demo.file_a
       = Some (s1, disk1, Ok resp)
    /\ resp_error resp = None
    /\ resp_chunks_count resp = 2%nat
    /\ vector_count s1 = 3%nat
    /\ length (chunks s1) = 2%nat
    /\ length (tokenized_chunks s1) = 2%nat.
Proof.
  do 5 eexists.
  split; [vm_compute; reflexivity|].
  split; [vm_compute; reflexivity|].
  repeat split.
Qed.

Lemma ingestion_keeps_the_counts_witness :
  @process_document Demo.library fresh empty_disk Demo.file_a
  = Some (Demo.corpus_a, snd (Demo.ingest Demo.start Demo.file_a),
          Ok Demo.response_a)
  /\ (0 < resp_chunks_count Demo.response_a)%nat
  /\ vector_count Demo.corpus_a = 2%nat
  /\ vector_count Demo.corpus_a = length (chunks Demo.corpus_a)
  /\ vector_count Demo.corpus_a = length (tokenized_chunks Demo.corpus_a).
Proof.
  split; [exact demo_first_call|].
  destruct (@ingestion_keeps_the_counts Demo.library fresh empty_disk
              Demo.file_a Demo.corpus_a
              (snd (Demo.ingest Demo.start Demo.file_a)) Demo.response_a)
    as (Hcount & _ & Hkeep & _).
  - exact demo_encode_row_per_text.
  - exact demo_first_call.
  - reflexivity.
  - split; [exact Hcount|].
    split; [vm_compute; reflexivity|].
    apply Hkeep. reflexivity.
Defined.

(** C9, as stated, fails: after [A.pdf] is ingested twice the chunk sequence
    holds every id of the file twice. *)
Lemma reingestion_repeats_chunk_ids :
  @ingested Demo.library [Demo.digest "A.pdf"; Demo.digest "A.pdf"]
    Demo.corpus_aa
  /\ map id (chunks Demo.corpus_aa)
     = [chunk_id (Demo.digest "A.pdf") 1 0; chunk_id (Demo.digest "A.pdf") 3 0;
        chunk_id (Demo.digest "A.pdf") 1 0; chunk_id (Demo.digest "A.pdf") 3 0]
  /\ ~ NoDup (map id (chunks Demo.corpus_aa)).
Proof.
  split; [exact demo_ingested_twice|].
  split; [vm_compute; reflexivity|].
  intros H. vm_compute in H.
  inversion H as [|x l Hnotin _]. apply Hnotin. right. left. reflexivity.
Qed.

Lemma chunk_ids_unique_witness :
  Forall (fun c =>
            id c = chunk_id (document_id c) (page_number c) (chunk_index c))
         (chunks Demo.corpus_ab)
  /\ length (chunks Demo.corpus_ab) = 3%nat
  /\ NoDup (map id (chunks Demo.corpus_ab)).
Proof.
  destruct (@chunk_ids_unique_for_distinct_documents Demo.library
              [Demo.digest "A.pdf"; Demo.digest "B.pdf"] Demo.corpus_ab)
    as (Hnamed & _ & Hunique).
  - exact demo_ingested.
  - split; [exact Hnamed|]. split; [reflexivity|].
    apply Hunique.
    + repeat constructor; simpl; intros H; decompose [or] H;
        try discriminate; assumption.
    + repeat constructor.
Defined.



Lemma demo_ranked_alpha filters :
  Demo.ranked_alpha filters
  = Demo.unwrap [] (@search_ranked Demo.library Demo.corpus_ab "alpha" 5
                      filters).
Proof.
  reflexivity.
Defined.


(** C4, as stated, fails: with [filters = {'document': ''}] the chunks of
    [A.pdf] are returned, and their filename is not [filters['document']]. *)
Lemma empty_document_filter_returns_other_files :
  exists results r,
    @search_documents Demo.library Demo.corpus_ab "alpha" 5
      (Some Demo.filters_empty_name) = Ok results
    /\ document Demo.filters_empty_name = Some EmptyString
    /\ In r results
    /\ filename (rc_chunk r) = "A.pdf"
    /\ filename (rc_chunk r) <> EmptyString.
Proof.
  eexists. eexists.
  split; [vm_compute; reflexivity|].
  split; [reflexivity|].
  split; [left; reflexivity|].
  split; [reflexivity|discriminate].
Qed.

Lemma truthy_filters_witness :
  @search_documents Demo.library Demo.corpus_ab "alpha" 5
    (Some Demo.filters_b)
  = Ok (map snd (Demo.ranked_alpha (Some Demo.filters_b)))
  /\ length (Demo.ranked_alpha (Some Demo.filters_b)) = 1%nat
  /\ Forall (fun r => filename (rc_chunk r) = "B.pdf")
       (map snd (Demo.ranked_alpha (Some Demo.filters_b)))
  /\ Forall (fun r => (1 <= Z.of_nat (page_number (rc_chunk r)) <= 1)%Z)
       (map snd (Demo.ranked_alpha (Some Demo.filters_b)))
  /\ Forall (fun r => (relevance_score r <? 0.3)%float = false)
       (map snd (Demo.ranked_alpha (Some Demo.filters_b))).
Proof.
  split; [vm_compute; reflexivity|].
  split; [vm_compute; reflexivity|].
  destruct (@truthy_filters_hold_of_results Demo.library Demo.corpus_ab
              "alpha" 5 Demo.filters_b
              (map snd (Demo.ranked_alpha (Some Demo.filters_b))))
    as (Hdoc & Hpage & Hconf).
  { vm_compute. reflexivity. }
  split; [apply Hdoc; [reflexivity|discriminate]|].
  split; [apply (Hpage 1%Z 1%Z []); reflexivity|].
  eapply Forall_impl; [|apply (Hconf 0.3%float); reflexivity].
  simpl. intros r [H _]. exact H.
Defined.



(* ################################################################# *)
(** * Part III: further properties of the code *)

(* ================================================================= *)
(** ** The chunker in general *)

Lemma lstrip_length s : (String.length (PyStr.lstrip s) <= String.length s)%nat.
Proof.
  induction s as [|c s IH]; simpl; [lia|].
  destruct (PyStr.isspace c); simpl; lia.
Qed.

Lemma rstrip_length s : (String.length (PyStr.rstrip s) <= String.length s)%nat.
Proof.
  induction s as [|c s IH]; simpl; [lia|].
  destruct (PyStr.is_empty (PyStr.rstrip s) && PyStr.isspace c); simpl; lia.
Qed.

Lemma strip_length s : (String.length (PyStr.strip s) <= String.length s)%nat.
Proof.
  unfold PyStr.strip.
  pose proof (rstrip_length (PyStr.lstrip s)). pose proof (lstrip_length s). lia.
Qed.

Lemma ceil_div_zero step : (0 < step)%nat -> ceil_div 0 step = 0%nat.
Proof.
  intros H. unfold ceil_div. apply Nat.div_small. lia.
Qed.

Lemma ceil_div_step a step :
  (0 < step)%nat -> (0 < a)%nat ->
  ceil_div a step = S (ceil_div (a - step) step).
Proof.
  intros Hstep Ha. unfold ceil_div.
  destruct (Nat.le_gt_cases step a) as [Hle|Hlt].
  - replace (a + step - 1)%nat with ((a - step + step - 1) + 1 * step)%nat by lia.
    rewrite Nat.div_add by lia. lia.
  - replace (a - step)%nat with 0%nat by lia.
    rewrite (Nat.div_small (0 + step - 1) step) by lia.
    symmetry. apply (Nat.div_unique _ _ 1 (a - 1)); lia.
Qed.

(** The loop visits the offsets [start], [start + step], ... below the length
    of the text. *)
Lemma chunk_loop_shape fuel text chunk_size overlap start :
  (overlap < chunk_size)%nat ->
  (String.length text - start <= fuel)%nat ->
  chunk_loop fuel text chunk_size overlap start
  = Some (map (fun i => window_at text chunk_size
                          (start + i * (chunk_size - overlap)))
              (seq 0 (ceil_div (String.length text - start)
                        (chunk_size - overlap)))).
Proof.
  intros Hstep. revert start.
  induction fuel as [|fuel IH]; intros start Hfuel; simpl.
  - destruct (Nat.ltb_spec start (String.length text)); [lia|].
    replace (String.length text - start)%nat with 0%nat by lia.
    rewrite ceil_div_zero by lia. reflexivity.
  - destruct (Nat.ltb_spec start (String.length text)) as [Hlt|Hge].
    + rewrite IH by lia. simpl option_map.
      rewrite (ceil_div_step (String.length text - start)) by lia.
      replace (String.length text - start - (chunk_size - overlap))%nat
        with (String.length text - (start + (chunk_size - overlap)))%nat
        by lia.
      simpl seq. simpl map. rewrite <- seq_shift, map_map.
      f_equal. f_equal.
      * unfold window_at. rewrite Nat.add_0_r. reflexivity.
      * apply map_ext. intros i. f_equal. simpl. lia.
    + replace (String.length text - start)%nat with 0%nat by lia.
      rewrite ceil_div_zero by lia. reflexivity.
Qed.

Lemma chunk_windows_offsets text chunk_size overlap :
  (overlap < chunk_size)%nat ->
  chunk_windows text chunk_size overlap
  = Some (map (fun i => window_at text chunk_size (i * (chunk_size - overlap)))
              (seq 0 (ceil_div (String.length text) (chunk_size - overlap)))).
Proof.
  intros Hstep. unfold chunk_windows.
  rewrite chunk_loop_shape by lia.
  rewrite Nat.sub_0_r. reflexivity.
Qed.

(** X1: with [overlap < chunk_size] the chunker returns
    [ceil(len(text) / (chunk_size - overlap))] chunks; the [i]-th is
    [text[i*step : i*step + chunk_size].strip()] for [step = chunk_size -
    overlap], and no chunk is longer than [chunk_size]. *)
Theorem chunk_text_shape text chunk_size overlap :
  (overlap < chunk_size)%nat ->
  exists chunks,
    _chunk_text text chunk_size overlap = Some chunks
    /\ length chunks
       = ceil_div (String.length text) (chunk_size - overlap)
    /\ (forall i,
          (i < length chunks)%nat ->
          nth_error chunks i
          = Some (PyStr.strip
                    (PyStr.slice text (i * (chunk_size - overlap))
                       chunk_size)))
    /\ Forall (fun c => (String.length c <= chunk_size)%nat) chunks.
Proof.
  intros Hstep. unfold _chunk_text.
  rewrite chunk_windows_offsets by assumption. simpl option_map.
  rewrite map_map. simpl.
  eexists. split; [reflexivity|].
  split; [rewrite length_map, length_seq; reflexivity|].
  split.
  - intros i Hi. rewrite length_map, length_seq in Hi.
    rewrite nth_error_map, nth_error_seq.
    destruct (Nat.ltb_spec i (ceil_div (String.length text)
                                (chunk_size - overlap))); [|lia].
    reflexivity.
  - apply Forall_forall. intros c Hc.
    apply in_map_iff in Hc as [i [<- _]].
    pose proof (strip_length
                  (PyStr.slice text (i * (chunk_size - overlap)) chunk_size)).
    unfold PyStr.slice in *.
    rewrite PyStrFacts.substring_length in H. lia.
Qed.

Lemma chunk_text_shape_witness :
  exists chunks,
    _chunk_text "abcdefghij" 4 1 = Some chunks
    /\ length chunks = ceil_div (String.length "abcdefghij") (4 - 1)
    /\ (forall i,
          (i < length chunks)%nat ->
          nth_error chunks i
          = Some (PyStr.strip (PyStr.slice "abcdefghij" (i * (4 - 1)) 4)))
    /\ Forall (fun c => (String.length c <= 4)%nat) chunks.
Proof.
  apply (chunk_text_shape "abcdefghij" 4 1). lia.
Defined.

Lemma _chunk_text_offsets text chunk_size overlap :
  (overlap < chunk_size)%nat ->
  _chunk_text text chunk_size overlap
  = Some (map (fun i => PyStr.strip
                          (PyStr.slice text (i * (chunk_size - overlap))
                             chunk_size))
              (seq 0 (ceil_div (String.length text) (chunk_size - overlap)))).
Proof.
  intros Hstep. unfold _chunk_text.
  rewrite chunk_windows_offsets by assumption. simpl option_map.
  rewrite map_map. reflexivity.
Qed.

Lemma get_some_length s p ch :
  String.get p s = Some ch -> (p < String.length s)%nat.
Proof.
  revert p. induction s as [|c s IH]; intros [|p]; simpl;
    try discriminate; try lia.
  intros H. apply IH in H. lia.
Qed.

Lemma ceil_div_gt p len step :
  (0 < step)%nat -> (p < len)%nat -> (p / step < ceil_div len step)%nat.
Proof.
  intros Hstep Hp. unfold ceil_div.
  apply Nat.lt_le_trans with (m := S ((len - 1) / step)).
  - apply Nat.lt_succ_r. apply Nat.Div0.div_le_mono. lia.
  - replace (len + step - 1)%nat with ((len - 1) + 1 * step)%nat by lia.
    rewrite Nat.div_add by lia. lia.
Qed.

(** X2: with [overlap < chunk_size] the windows leave no character out: the
    character at every position [p] of the text is the character at
    [p - start] of the slice [text[start:start+chunk_size]] of some window
    the chunker returns, before the slice is stripped. *)
Theorem chunk_windows_cover text chunk_size overlap :
  (overlap < chunk_size)%nat ->
  exists windows,
    chunk_windows text chunk_size overlap = Some windows
    /\ forall p ch,
         String.get p text = Some ch ->
         exists start,
           In (start, PyStr.strip (PyStr.slice text start chunk_size)) windows
           /\ (start <= p < start + chunk_size)%nat
           /\ String.get (p - start) (PyStr.slice text start chunk_size)
              = Some ch.
Proof.
  intros Hstep. rewrite chunk_windows_offsets by assumption.
  eexists. split; [reflexivity|].
  intros p ch Hget.
  assert (Hp := get_some_length _ _ _ Hget).
  set (step := (chunk_size - overlap)%nat).
  assert (Hpos : (0 < step)%nat) by (unfold step; lia).
  exists ((p / step) * step)%nat.
  assert (Hlow : (p / step * step <= p)%nat).
  { rewrite Nat.mul_comm. apply Nat.Div0.mul_div_le. }
  assert (Hhigh : (p < p / step * step + step)%nat).
  { pose proof (Nat.mul_succ_div_gt p step). lia. }
  split; [|split].
  - apply in_map_iff. exists (p / step)%nat. split; [reflexivity|].
    apply in_seq. split; [lia|]. simpl. apply ceil_div_gt; assumption.
  - unfold step in *. lia.
  - unfold PyStr.slice. rewrite substring_correct1 by (unfold step in *; lia).
    replace (p - p / step * step + p / step * step)%nat with p by lia.
    assumption.
Qed.

Lemma chunk_windows_cover_witness :
  exists windows,
    chunk_windows "abcdefghij" 4 1 = Some windows
    /\ forall p ch,
         String.get p "abcdefghij" = Some ch ->
         exists start,
           In (start, PyStr.strip (PyStr.slice "abcdefghij" start 4)) windows
           /\ (start <= p < start + 4)%nat
           /\ String.get (p - start) (PyStr.slice "abcdefghij" start 4)
              = Some ch.
Proof.
  apply (chunk_windows_cover "abcdefghij" 4 1). lia.
Defined.

(** X3: the chunker returns exactly when [overlap < chunk_size] or the text
    is empty.  With [chunk_size <= overlap] the offset never advances, and on
    a text that is not empty the loop does not stop within any number of
    turns. *)
Theorem chunk_text_returns_iff text chunk_size overlap :
  ((exists chunks, _chunk_text text chunk_size overlap = Some chunks)
   <-> (overlap < chunk_size)%nat \/ text = EmptyString)
  /\ ((chunk_size <= overlap)%nat -> text <> EmptyString ->
      forall fuel, chunk_loop fuel text chunk_size overlap 0 = None).
Proof.
  assert (Hloop : (chunk_size <= overlap)%nat -> text <> EmptyString ->
                  forall fuel, chunk_loop fuel text chunk_size overlap 0 = None).
  { intros Hge Hne fuel. apply chunk_loop_diverges; [assumption|].
    destruct text; [contradiction|simpl; lia]. }
  split; [|exact Hloop].
  split.
  - intros [cs Hcs].
    destruct (Nat.lt_ge_cases overlap chunk_size) as [Hlt|Hge]; [auto|].
    right. destruct text as [|c t]; [reflexivity|].
    unfold _chunk_text, chunk_windows in Hcs.
    rewrite Hloop in Hcs by (assumption || discriminate). discriminate.
  - intros [Hlt | ->].
    + apply _chunk_text_total. assumption.
    + exists []. reflexivity.
Qed.

Lemma lstrip_first s ch :
  first_char (PyStr.lstrip s) = Some ch -> PyStr.isspace ch = false.
Proof.
  induction s as [|c s IH]; simpl; [discriminate|].
  destruct (PyStr.isspace c) eqn:Hc; [assumption|].
  unfold first_char. simpl. intros [= <-]. assumption.
Qed.

Lemma rstrip_last s ch :
  last_char (PyStr.rstrip s) = Some ch -> PyStr.isspace ch = false.
Proof.
  induction s as [|c s IH]; simpl; [discriminate|].
  destruct (PyStr.rstrip s) as [|c' r] eqn:Hr; simpl.
  - destruct (PyStr.isspace c) eqn:Hc; simpl; [discriminate|].
    intros [= <-]. assumption.
  - exact IH.
Qed.

Lemma rstrip_idempotent s : PyStr.rstrip (PyStr.rstrip s) = PyStr.rstrip s.
Proof.
  induction s as [|c s IH]; simpl; [reflexivity|].
  destruct (PyStr.is_empty (PyStr.rstrip s) && PyStr.isspace c) eqn:Hc;
    [reflexivity|].
  simpl. rewrite IH, Hc. reflexivity.
Qed.

Lemma lstrip_cases s :
  PyStr.lstrip s = EmptyString
  \/ exists c t, PyStr.lstrip s = String c t /\ PyStr.isspace c = false.
Proof.
  induction s as [|c s IH]; simpl; [auto|].
  destruct (PyStr.isspace c) eqn:Hc; [assumption|]. right. eauto.
Qed.

Lemma rstrip_cons c s :
  PyStr.isspace c = false ->
  PyStr.rstrip (String c s) = String c (PyStr.rstrip s).
Proof.
  intros Hc. simpl. rewrite Hc, andb_false_r. reflexivity.
Qed.

Lemma strip_idempotent s : PyStr.strip (PyStr.strip s) = PyStr.strip s.
Proof.
  unfold PyStr.strip.
  destruct (lstrip_cases s) as [-> | (c & t & -> & Hc)]; [reflexivity|].
  rewrite rstrip_cons by assumption.
  simpl PyStr.lstrip. rewrite Hc.
  rewrite rstrip_cons by assumption. rewrite rstrip_idempotent. reflexivity.
Qed.

Lemma strip_first s ch :
  first_char (PyStr.strip s) = Some ch -> PyStr.isspace ch = false.
Proof.
  unfold PyStr.strip.
  destruct (lstrip_cases s) as [-> | (c & t & -> & Hc)]; [discriminate|].
  rewrite rstrip_cons by assumption.
  unfold first_char. simpl. intros [= <-]. assumption.
Qed.

(** X4: with [overlap < chunk_size] every chunk the chunker returns is
    trimmed: stripping it again changes nothing, and neither its first nor
    its last character is whitespace.  A window that holds only whitespace
    is not dropped: its chunk is the empty string. *)
Theorem chunks_are_trimmed text chunk_size overlap :
  (overlap < chunk_size)%nat ->
  exists chunks,
    _chunk_text text chunk_size overlap = Some chunks
    /\ Forall (fun c =>
                 PyStr.strip c = c
                 /\ (forall ch, first_char c = Some ch ->
                       PyStr.isspace ch = false)
                 /\ (forall ch, last_char c = Some ch ->
                       PyStr.isspace ch = false)) chunks
    /\ forall i,
         (i < length chunks)%nat ->
         PyStr.all_space
           (PyStr.slice text (i * (chunk_size - overlap)) chunk_size) = true ->
         nth_error chunks i = Some EmptyString.
Proof.
  intros Hstep. rewrite _chunk_text_offsets by assumption.
  eexists. split; [reflexivity|]. split.
  - apply Forall_forall. intros c Hc.
    apply in_map_iff in Hc as [i [<- _]].
    split; [apply strip_idempotent|].
    split; [apply strip_first|].
    intros ch. unfold PyStr.strip. apply rstrip_last.
  - intros i Hi Hblank. rewrite length_map, length_seq in Hi.
    rewrite nth_error_map, nth_error_seq.
    destruct (Nat.ltb_spec i (ceil_div (String.length text)
                                (chunk_size - overlap))); [|lia].
    simpl. rewrite PyStrFacts.strip_all_space by assumption. reflexivity.
Qed.

Lemma chunks_are_trimmed_witness :
  exists chunks,
    _chunk_text " a    b " 2 0 = Some chunks
    /\ Forall (fun c =>
                 PyStr.strip c = c
                 /\ (forall ch, first_char c = Some ch ->
                       PyStr.isspace ch = false)
                 /\ (forall ch, last_char c = Some ch ->
                       PyStr.isspace ch = false)) chunks
    /\ forall i,
         (i < length chunks)%nat ->
         PyStr.all_space (PyStr.slice " a    b " (i * (2 - 0)) 2) = true ->
         nth_error chunks i = Some EmptyString.
Proof.
  apply (chunks_are_trimmed " a    b " 2 0). lia.
Defined.

(* ================================================================= *)
(** ** Text extraction *)

Lemma StronglySorted_app {A} (R : A -> A -> Prop) l1 l2 :
  StronglySorted R l1 -> StronglySorted R l2 ->
  (forall x y, In x l1 -> In y l2 -> R x y) ->
  StronglySorted R (l1 ++ l2).
Proof.
  induction l1 as [|a l1 IH]; simpl; intros H1 H2 Hcross; [assumption|].
  inversion H1; subst. constructor.
  - apply IH; auto.
  - apply Forall_app. split; [assumption|].
    apply Forall_forall. intros y Hy. apply Hcross; auto.
Qed.

Lemma seq_sorted start len : StronglySorted lt (seq start len).
Proof.
  revert start. induction len as [|len IH]; intros start; simpl; constructor.
  - apply IH.
  - apply Forall_forall. intros y Hy. apply in_seq in Hy. lia.
Qed.

Lemma combine_seq_map {A} (f : nat -> A) start len :
  combine (seq start len) (map f (seq start len))
  = map (fun i => (i, f i)) (seq start len).
Proof.
  revert start. induction len as [|len IH]; intros start; simpl;
    [reflexivity|].
  rewrite IH. reflexivity.
Qed.

(** The records of a page whose text has [len] characters. *)
Lemma page_records_of_text doc_id fname page_num text page_chunks :
  _chunk_text text 1000 200 = Some page_chunks ->
  page_records doc_id fname page_num page_chunks
  = map (fun i => chunk_record doc_id fname page_num i
                    (PyStr.strip (PyStr.slice text (i * 800) 1000)))
        (seq 0 (ceil_div (String.length text) 800)).
Proof.
  rewrite _chunk_text_offsets by lia. intros [= <-].
  unfold page_records. rewrite length_map, length_seq.
  change (1000 - 200)%nat with 800%nat.
  rewrite (combine_seq_map
             (fun i => PyStr.strip (PyStr.slice text (i * 800) 1000))).
  rewrite map_map. reflexivity.
Qed.

Lemma extract_pages_order doc_id fname pages page_num acc out :
  extract_pages doc_id fname pages page_num acc = Some out ->
  exists added,
    out = acc ++ added
    /\ StronglySorted place_lt (map chunk_place added)
    /\ Forall (fun c =>
                 (page_num <= page_number c < page_num + length pages)%nat
                 /\ document_id c = doc_id
                 /\ filename c = fname
                 /\ (String.length (content c) <= 1000)%nat
                 /\ PyStr.strip (content c) = content c) added.
Proof.
  revert page_num acc.
  induction pages as [|[text|] rest IH]; intros page_num acc; simpl.
  - intros [= <-]. exists []. rewrite app_nil_r.
    repeat split; constructor.
  - destruct (PyStr.truthy (PyStr.strip text)).
    + destruct (_chunk_text text 1000 200) as [cs|] eqn:Hcs; [|discriminate].
      intros H. destruct (IH _ _ H) as (added & -> & Hsorted & Hall).
      exists (page_records doc_id fname page_num cs ++ added).
      rewrite app_assoc. split; [reflexivity|].
      assert (Hpage : Forall (fun c =>
                 (page_num <= page_number c
                  < page_num + S (length rest))%nat
                 /\ document_id c = doc_id
                 /\ filename c = fname
                 /\ (String.length (content c) <= 1000)%nat
                 /\ PyStr.strip (content c) = content c)
                (page_records doc_id fname page_num cs)).
      { rewrite (page_records_of_text _ _ _ _ _ Hcs).
        apply Forall_forall. intros c Hc.
        apply in_map_iff in Hc as [i [<- _]]. simpl.
        split; [lia|]. split; [reflexivity|]. split; [reflexivity|].
        split; [|apply strip_idempotent].
        pose proof (strip_length (PyStr.slice text (i * 800) 1000)).
        unfold PyStr.slice in *.
        rewrite PyStrFacts.substring_length in H0. lia. }
      split.
      * rewrite map_app. apply StronglySorted_app; [|assumption|].
        -- rewrite page_records_places.
           apply StronglySorted_map.
           eapply StronglySorted_impl_in; [|apply seq_sorted].
           intros a b _ _ Hab. right. simpl. auto.
        -- intros x y Hx Hy.
           apply in_map_iff in Hx as [c [<- Hc]].
           apply in_map_iff in Hy as [c' [<- Hc']].
           rewrite Forall_forall in Hall. apply Hall in Hc'.
           apply page_records_page_number in Hc.
           left. simpl. lia.
      * apply Forall_app. split; [assumption|].
        eapply Forall_impl; [|exact Hall]. simpl.
        intros c [Hp Hc]. split; [lia|exact Hc].
    + intros H. destruct (IH _ _ H) as (added & -> & Hsorted & Hall).
      exists added. repeat split; auto.
      eapply Forall_impl; [|exact Hall]. simpl.
      intros c [Hp Hc]. split; [lia|exact Hc].
  - intros [= <-]. exists []. rewrite app_nil_r.
    repeat split; constructor.
Qed.

(** A page that raises ends the loop: the pages behind it are not read. *)
Lemma extract_pages_stops doc_id fname pages n page_num acc :
  nth_error pages n = Some PageRaises ->
  extract_pages doc_id fname pages page_num acc
  = extract_pages doc_id fname (firstn n pages) page_num acc.
Proof.
  revert n page_num acc.
  induction pages as [|[text|] rest IH]; intros [|n] page_num acc; simpl;
    try discriminate; try reflexivity.
  intros Hn.
  destruct (PyStr.truthy (PyStr.strip text)); [|auto].
  destruct (_chunk_text text 1000 200); auto.
Qed.

(** The records of a readable page with text are in the result. *)
Lemma extract_pages_page doc_id fname pages n text page_num acc out :
  extract_pages doc_id fname pages page_num acc = Some out ->
  readable_before pages n ->
  nth_error pages n = Some (PageText text) ->
  PyStr.truthy (PyStr.strip text) = true ->
  exists page_chunks,
    _chunk_text text 1000 200 = Some page_chunks
    /\ incl (page_records doc_id fname (page_num + n) page_chunks) out.
Proof.
  revert n page_num acc.
  induction pages as [|page rest IH]; intros [|n] page_num acc; simpl;
    try discriminate.
  - intros H _ [= ->] Htext. rewrite Htext in H.
    destruct (_chunk_text text 1000 200) as [cs|]; [|discriminate].
    exists cs. split; [reflexivity|].
    apply extract_pages_added in H as (added & -> & _).
    rewrite Nat.add_0_r. intros c Hc.
    apply in_or_app. left. apply in_or_app. right. assumption.
  - intros H Hread Hn Htext.
    assert (Hrest : readable_before rest n).
    { intros m Hm. apply (Hread (S m)). lia. }
    assert (H0 := Hread 0%nat). simpl in H0.
    destruct page as [t|]; [|exfalso; apply H0; [lia|reflexivity]].
    replace (page_num + S n)%nat with (S page_num + n)%nat by lia.
    destruct (PyStr.truthy (PyStr.strip t)).
    + destruct (_chunk_text t 1000 200); [|discriminate].
      eapply IH; eassumption.
    + eapply IH; eassumption.
Qed.

Section ExtractionOrder.

Context {lib : Libraries}.

(** X5: text extraction returns, and its records stand in reading order:
    by page, and within a page by chunk index.  Every record carries the
    document id and filename it was called with and a page number from 1 on;
    its content is trimmed and has at most 1000 characters. *)
Theorem extraction_in_reading_order file_content doc_id fname :
  exists out,
    _extract_and_chunk_pdf file_content doc_id fname = Some out
    /\ StronglySorted place_lt (map chunk_place out)
    /\ Forall (fun c =>
                 document_id c = doc_id
                 /\ filename c = fname
                 /\ (1 <= page_number c)%nat
                 /\ (String.length (content c) <= 1000)%nat
                 /\ PyStr.strip (content c) = content c) out.
Proof.
  destruct (_extract_and_chunk_pdf_total file_content doc_id fname)
    as [out Hout].
  exists out. split; [assumption|].
  unfold _extract_and_chunk_pdf in Hout.
  destruct (PdfReader file_content) as [pages|e].
  - apply extract_pages_order in Hout as (added & -> & Hsorted & Hall).
    simpl. split; [assumption|].
    eapply Forall_impl; [|exact Hall]. simpl. intros c. tauto.
  - injection Hout as <-. split; constructor.
Qed.

(** X6: a page on which [extract_text] raises ends the extraction without an
    error: the result is what the pages before it gave, every chunk has a
    smaller page number, and no later page is read.  A reader that raises
    gives no chunk. *)
Theorem extraction_stops_at_failing_page
    file_content doc_id fname pages n :
  PdfReader file_content = Ok pages ->
  nth_error pages n = Some PageRaises ->
  exists out,
    _extract_and_chunk_pdf file_content doc_id fname = Some out
    /\ extract_pages doc_id fname (firstn n pages) 1 [] = Some out
    /\ Forall (fun c => (page_number c <= n)%nat) out.
Proof.
  intros Hread Hn.
  destruct (_extract_and_chunk_pdf_total file_content doc_id fname)
    as [out Hout].
  exists out. split; [assumption|].
  unfold _extract_and_chunk_pdf in Hout. rewrite Hread in Hout.
  rewrite (extract_pages_stops _ _ _ _ _ _ Hn) in Hout.
  split; [assumption|].
  apply extract_pages_order in Hout as (added & -> & _ & Hall).
  simpl. eapply Forall_impl; [|exact Hall]. simpl. intros c [Hp _].
  rewrite length_firstn in Hp. lia.
Qed.

(** X7: a page that is reached and has text gets all its chunks.  When no
    earlier page raises and the text of page [n + 1] does not strip to the
    empty string, the result holds, for every [i < ceil(len(text) / 800)], a
    record of that page with chunk index [i], the id
    [f"{doc_id}_page{n+1}_chunk{i}"] and the content
    [text[800*i : 800*i + 1000].strip()]. *)
Theorem page_with_text_is_chunked
    file_content doc_id fname pages n text :
  PdfReader file_content = Ok pages ->
  readable_before pages n ->
  nth_error pages n = Some (PageText text) ->
  PyStr.truthy (PyStr.strip text) = true ->
  exists out,
    _extract_and_chunk_pdf file_content doc_id fname = Some out
    /\ forall i,
         (i < ceil_div (String.length text) 800)%nat ->
         In {| id := chunk_id doc_id (S n) i;
               document_id := doc_id;
               filename := fname;
               page_number := S n;
               chunk_index := i;
               content := PyStr.strip (PyStr.slice text (i * 800) 1000) |}
            out.
Proof.
  intros Hread Hbefore Hn Htext.
  destruct (_extract_and_chunk_pdf_total file_content doc_id fname)
    as [out Hout].
  exists out. split; [assumption|].
  unfold _extract_and_chunk_pdf in Hout. rewrite Hread in Hout.
  destruct (extract_pages_page _ _ _ _ _ _ _ _ Hout Hbefore Hn Htext)
    as (cs & Hcs & Hincl).
  intros i Hi. apply Hincl.
  rewrite (page_records_of_text _ _ _ _ _ Hcs).
  apply in_map_iff. exists i. split; [reflexivity|].
  apply in_seq. lia.
Qed.

End ExtractionOrder.

Lemma extraction_stops_witness :
  exists out,
    @_extract_and_chunk_pdf Fragile.library
      (upload_content Fragile.file_torn) "d" "A.pdf" = Some out
    /\ extract_pages "d" "A.pdf"
         (firstn 2 [PageText "alpha beta"; PageText "gamma"; PageRaises;
                    PageText "delta"]) 1 [] = Some out
    /\ Forall (fun c => (page_number c <= 2)%nat) out.
Proof.
  apply (@extraction_stops_at_failing_page Fragile.library
           (upload_content Fragile.file_torn) "d" "A.pdf"
           [PageText "alpha beta"; PageText "gamma"; PageRaises;
            PageText "delta"] 2); reflexivity.
Defined.

Lemma page_with_text_witness :
  exists out,
    @_extract_and_chunk_pdf Demo.library
      (upload_content Demo.file_a) "d" "A.pdf" = Some out
    /\ forall i,
         (i < ceil_div (String.length "gamma") 800)%nat ->
         In {| id := chunk_id "d" 3 i;
               document_id := "d";
               filename := "A.pdf";
               page_number := 3;
               chunk_index := i;
               content := PyStr.strip (PyStr.slice "gamma" (i * 800) 1000) |}
            out.
Proof.
  apply (@page_with_text_is_chunked Demo.library
           (upload_content Demo.file_a) "d" "A.pdf"
           [PageText "alpha beta"; PageText "   "; PageText "gamma"] 2
           "gamma").
  - reflexivity.
  - intros [|[|m]] Hm; simpl; try discriminate. lia.
  - reflexivity.
  - reflexivity.
Defined.

(* ================================================================= *)
(** ** Outcomes of an ingestion *)

Lemma dict_set_get_same_str {V} k (v : V) d :
  Py.dict_get String.eqb k (Py.dict_set String.eqb k v d) = Some v.
Proof.
  induction d as [|[k' v'] d IH]; simpl.
  - rewrite String.eqb_refl. reflexivity.
  - destruct (String.eqb k k') eqn:Hk; simpl.
    + rewrite String.eqb_refl. reflexivity.
    + rewrite Hk. exact IH.
Qed.

Lemma dict_set_get_other_str {V} k k0 (v : V) d :
  k0 <> k ->
  Py.dict_get String.eqb k0 (Py.dict_set String.eqb k v d)
  = Py.dict_get String.eqb k0 d.
Proof.
  intros Hne. apply String.eqb_neq in Hne.
  induction d as [|[k' v'] d IH]; simpl.
  - rewrite Hne. reflexivity.
  - destruct (String.eqb_spec k k') as [<-|Hk]; simpl.
    + rewrite Hne. reflexivity.
    + destruct (String.eqb k0 k'); [reflexivity|exact IH].
Qed.

Lemma dict_set_in_str {V} k (v : V) d : In (k, v) (Py.dict_set String.eqb k v d).
Proof.
  induction d as [|[k' v'] d IH]; simpl; [auto|].
  destruct (String.eqb k k'); simpl; auto.
Qed.

(** The keys after [d[k] = v]: the same list, with [k] at the end when it was
    not a key. *)
Lemma dict_set_keys_str {V} k (v : V) d :
  map fst (Py.dict_set String.eqb k v d)
  = if existsb (String.eqb k) (map fst d) then map fst d
    else map fst d ++ [k].
Proof.
  induction d as [|[k' v'] d IH]; simpl; [reflexivity|].
  destruct (String.eqb_spec k k') as [<-|Hk]; simpl; [reflexivity|].
  rewrite IH. destruct (existsb (String.eqb k) (map fst d)); reflexivity.
Qed.

Lemma dict_set_other_items_str {V} k (v : V) d k0 v0 :
  k0 <> k ->
  In (k0, v0) (Py.dict_set String.eqb k v d) <-> In (k0, v0) d.
Proof.
  intros Hne. induction d as [|[k' v'] d IH]; simpl.
  - split; [intros [[= <- _]|[]]; contradiction|intros []].
  - destruct (String.eqb_spec k k') as [<-|Hk]; simpl.
    + split; intros [[= H _]|H]; auto; congruence.
    + rewrite IH. tauto.
Qed.

Section IngestionOutcomes.

Context {lib : Libraries}.

(** The ways a call of [process_document] ends. *)
Lemma process_document_inv s disk file s' disk' r :
  process_document s disk file = Some (s', disk', r) ->
  (exists e,
     write_upload file = Raise e
     /\ s' = s /\ disk' = disk /\ r = Raise e)
  \/ exists text_chunks,
       write_upload file = Ok tt
       /\ _extract_and_chunk_pdf (upload_content file)
            (md5_hexdigest (upload_filename file)) (upload_filename file)
          = Some text_chunks
       /\ ((text_chunks = []
            /\ s' = s /\ disk' = disk /\ r = Ok (no_text_response file))
           \/ (text_chunks <> []
               /\ ((exists e,
                      encode (map content text_chunks) = Raise e
                      /\ s' = s /\ disk' = disk /\ r = Raise e)
                   \/ exists rows,
                        encode (map content text_chunks) = Ok rows
                        /\ ((exists e,
                               index_add (index s) rows = Raise e
                               /\ s' = s /\ disk' = disk /\ r = Raise e)
                            \/ (index_add (index s) rows
                                = Ok {| dim := dim (index s);
                                        vectors := vectors (index s) ++ rows |}
                                /\ index s'
                                   = {| dim := dim (index s);
                                        vectors := vectors (index s) ++ rows |}
                                /\ chunks s' = chunks s ++ text_chunks
                                /\ tokenized_chunks s'
                                   = tokenize_all (chunks s ++ text_chunks)
                                /\ ((exists e,
                                       BM25Okapi
                                         (tokenize_all
                                            (chunks s ++ text_chunks))
                                       = Raise e
                                       /\ documents s' = documents s
                                       /\ bm25 s' = bm25 s
                                       /\ disk' = disk /\ r = Raise e)
                                    \/ exists model,
                                         BM25Okapi
                                           (tokenize_all
                                              (chunks s ++ text_chunks))
                                         = Ok model
                                         /\ documents s'
                                            = Py.dict_set String.eqb
                                                (md5_hexdigest
                                                   (upload_filename file))
                                                {| meta_filename :=
                                                     upload_filename file;
                                                   meta_path :=
                                                     upload_path
                                                       (upload_filename file);
                                                   meta_chunks_count :=
                                                     length text_chunks |}
                                                (documents s)
                                         /\ bm25 s' = Some model
                                         /\ disk'
                                            = _save_persistent_data s' disk
                                         /\ r = Ok
                                              {| resp_document_id :=
                                                   md5_hexdigest
                                                     (upload_filename file);
                                                 resp_filename :=
                                                   upload_filename file;
                                                 resp_chunks_count :=
                                                   length text_chunks;
                                                 resp_error := None |})))))).
Proof.
  unfold process_document.
  destruct (write_upload file) as [[]|e].
  2:{ intros [= <- <- <-]. left. eauto. }
  destruct (_extract_and_chunk_pdf _ _ _) as [text_chunks|]; [|discriminate].
  intros H. right. exists text_chunks.
  split; [reflexivity|]. split; [reflexivity|].
  injection H as H.
  destruct text_chunks as [|c0 cs] eqn:Htc.
  { simpl in H. injection H as <- <- <-. left. auto. }
  rewrite <- Htc in *.
  assert (Hne : text_chunks <> []) by (subst; discriminate).
  replace (Py.is_nil text_chunks) with false in H by (subst; reflexivity).
  clear Htc c0 cs. right. split; [assumption|].
  destruct (encode (map content text_chunks)) as [rows|e].
  2:{ injection H as <- <- <-. left. eauto. }
  right. exists rows. split; [reflexivity|].
  unfold index_add in *.
  destruct (forallb _ rows).
  2:{ injection H as <- <- <-. left. eauto. }
  right. split; [reflexivity|].
  unfold _build_bm25_index in H. simpl in H.
  assert (Hnil : Py.is_nil (chunks s ++ text_chunks) = false).
  { destruct (chunks s); destruct text_chunks; simpl; congruence. }
  rewrite Hnil in H. fold (tokenize_all (chunks s ++ text_chunks)) in H.
  destruct (BM25Okapi (tokenize_all (chunks s ++ text_chunks)))
    as [model|e].
  - injection H as <- <- <-. simpl.
    repeat (split; [reflexivity|]). right. exists model. auto.
  - injection H as <- <- <-. simpl.
    repeat (split; [reflexivity|]). left. exists e. auto.
Qed.

End IngestionOutcomes.




Lemma filter_all {A} (f : A -> bool) l :
  Forall (fun x => f x = true) l -> filter f l = l.
Proof.
  induction 1 as [|x l Hx _ IH]; simpl; [reflexivity|].
  rewrite Hx, IH. reflexivity.
Qed.

Lemma dict_set_items_str {V} k (v : V) d k0 v0 :
  In (k0, v0) (Py.dict_set String.eqb k v d) ->
  (k0 = k /\ v0 = v) \/ In (k0, v0) d.
Proof.
  induction d as [|[k' v'] d IH]; simpl.
  - intros [[= <- <-]|[]]. auto.
  - destruct (String.eqb k k'); simpl.
    + intros [[= <- <-]|H]; auto.
    + intros [H|H]; [auto|]. destruct (IH H); auto.
Qed.

Section IngestionTheorems.

Context {lib : Libraries}.

Lemma listing_ids s :
  map entry_document_id (get_all_documents s) = map fst (documents s).
Proof.
  unfold get_all_documents. rewrite map_map.
  apply map_ext. intros [d m]. reflexivity.
Qed.

Lemma listing_in s e :
  In e (get_all_documents s)
  <-> In (entry_document_id e,
          {| meta_filename := entry_filename e;
             meta_path := entry_path e;
             meta_chunks_count := entry_chunks_count e |}) (documents s).
Proof.
  unfold get_all_documents. rewrite in_map_iff. split.
  - intros [[d [f p n]] [<- H]]. exact H.
  - intros H. eexists. split; [|exact H]. destruct e; reflexivity.
Qed.

(** X8: a call of [process_document], whatever its outcome, only appends: the
    chunks and the vectors held before stay, in their order, at the front of
    the chunk list and of the index, the width of the index stays, and the
    record of every other document is as before. *)
Theorem ingestion_only_appends s disk file :
  exists s' disk' r new_chunks new_rows,
    process_document s disk file = Some (s', disk', r)
    /\ chunks s' = chunks s ++ new_chunks
    /\ vectors (index s') = vectors (index s) ++ new_rows
    /\ dim (index s') = dim (index s)
    /\ forall doc_id,
         doc_id <> md5_hexdigest (upload_filename file) ->
         Py.dict_get String.eqb doc_id (documents s')
         = Py.dict_get String.eqb doc_id (documents s).
Proof.
  destruct (process_document_returns s disk file) as [[[s' disk'] r] H].
  exists s', disk', r.
  destruct (process_document_inv _ _ _ _ _ _ H)
    as [(e & _ & -> & _)
       |(tc & _ & _ &
         [(_ & -> & _)
         |(_ & [(e & _ & -> & _)
               |(rows & _ & [(e & _ & -> & _)
                            |(_ & Hix & Hch & _ & Hrest)])])])];
    try solve [exists [], []; rewrite !app_nil_r; auto 10].
  exists tc, rows. rewrite Hix, Hch. simpl.
  repeat (split; [auto|]).
  intros doc_id Hne.
  destruct Hrest as [(e & _ & -> & _)|(model & _ & -> & _)];
    [reflexivity|apply dict_set_get_other_str; assumption].
Qed.






(** X12: after a successful ingestion the keyword corpus is the chunk list
    tokenized, position by position, and the keyword model is the one
    [BM25Okapi] builds over that whole corpus. *)
Theorem keyword_corpus_matches_chunks s disk file s' disk' resp :
  process_document s disk file = Some (s', disk', Ok resp) ->
  resp_error resp = None ->
  tokenized_chunks s' = map (fun c => _tokenize (content c)) (chunks s')
  /\ exists model,
       bm25 s' = Some model
       /\ BM25Okapi (tokenized_chunks s') = Ok model.
Proof.
  intros H Herr.
  destruct (process_document_inv _ _ _ _ _ _ H)
    as [(e' & _ & _ & _ & [=])
       |(tc & _ & _ &
         [(_ & _ & _ & [= ->])
         |(Hne & [(e' & _ & _ & _ & [=])
                 |(rows & _ & [(e' & _ & _ & _ & [=])
                              |(_ & Hix & Hch & Htok &
                                [(e' & _ & _ & _ & _ & [=])
                                |(model & Hbm & _ & Hb & _ & _)])])])])];
    [discriminate|].
  rewrite Htok, Hch. split; [reflexivity|]. eauto.
Qed.

(** What a successful call leaves. *)
Lemma process_document_stored s disk file s' disk' resp :
  process_document s disk file = Some (s', disk', Ok resp) ->
  resp_error resp = None ->
  exists text_chunks model,
    _extract_and_chunk_pdf (upload_content file)
      (md5_hexdigest (upload_filename file)) (upload_filename file)
    = Some text_chunks
    /\ text_chunks <> []
    /\ chunks s' = chunks s ++ text_chunks
    /\ bm25 s' = Some model
    /\ documents s'
       = Py.dict_set String.eqb (md5_hexdigest (upload_filename file))
           {| meta_filename := upload_filename file;
              meta_path := upload_path (upload_filename file);
              meta_chunks_count := length text_chunks |} (documents s)
    /\ disk' = _save_persistent_data s' disk
    /\ resp = {| resp_document_id := md5_hexdigest (upload_filename file);
                 resp_filename := upload_filename file;
                 resp_chunks_count := length text_chunks;
                 resp_error := None |}.
Proof.
  intros H Herr.
  destruct (process_document_inv _ _ _ _ _ _ H)
    as [(e' & _ & _ & _ & [=])
       |(tc & _ & Htc &
         [(_ & _ & _ & [= ->])
         |(Hne & [(e' & _ & _ & _ & [=])
                 |(rows & _ & [(e' & _ & _ & _ & [=])
                              |(_ & Hix & Hch & Htok &
                                [(e' & _ & _ & _ & _ & [=])
                                |(model & Hbm & Hdocs & Hb & Hdisk
                                  & [= ->])])])])])];
    [discriminate|].
  exists tc, model. auto 10.
Qed.

(** X13: after a successful ingestion the document is listed:
    [list_documents], which is [get_all_documents], holds an entry with the
    id, the filename and the chunk count of the returned dict, where the
    count is the number of chunks the call appended.  The listing keeps its
    order: the entry takes the place of an entry with the same id, or the
    end of the list when there was none, and the entries of other documents
    are as before. *)
Theorem stored_document_is_listed s disk file s' disk' resp :
  process_document s disk file = Some (s', disk', Ok resp) ->
  resp_error resp = None ->
  In {| entry_document_id := resp_document_id resp;
        entry_filename := resp_filename resp;
        entry_path := upload_path (resp_filename resp);
        entry_chunks_count := resp_chunks_count resp |} (list_documents s')
  /\ list_documents s' = get_all_documents s'
  /\ length (chunks s') = (length (chunks s) + resp_chunks_count resp)%nat
  /\ map entry_document_id (get_all_documents s')
     = (if existsb (String.eqb (resp_document_id resp))
             (map entry_document_id (get_all_documents s))
        then map entry_document_id (get_all_documents s)
        else map entry_document_id (get_all_documents s)
             ++ [resp_document_id resp])
  /\ forall e,
       entry_document_id e <> resp_document_id resp ->
       (In e (get_all_documents s') <-> In e (get_all_documents s)).
Proof.
  intros H Herr.
  destruct (process_document_stored _ _ _ _ _ _ H Herr)
    as (tc & model & _ & _ & Hch & _ & Hdocs & _ & ->). simpl.
  split.
  { unfold list_documents. apply listing_in. simpl. rewrite Hdocs.
    apply dict_set_in_str. }
  split; [reflexivity|].
  split; [rewrite Hch; apply length_app|].
  split.
  { rewrite !listing_ids, Hdocs. apply dict_set_keys_str. }
  intros e Hne. rewrite !listing_in, Hdocs.
  apply dict_set_other_items_str. assumption.
Qed.

(** No document id is a key twice, and every key was ingested. *)
Lemma ingested_documents ids s :
  ingested ids s ->
  NoDup (map fst (documents s))
  /\ incl (map fst (documents s)) ids.
Proof.
  induction 1 as [|ids s disk file s' disk' r Hing [IHnd IHin] Hcall].
  { split; [constructor|intros x []]. }
  assert (Hkeep : documents s' = documents s ->
                  NoDup (map fst (documents s'))
                  /\ incl (map fst (documents s'))
                       (ids ++ [md5_hexdigest (upload_filename file)])).
  { intros ->. split; [assumption|].
    intros x Hx. apply in_or_app. auto. }
  destruct (process_document_inv _ _ _ _ _ _ Hcall)
    as [(e & _ & -> & _)
       |(tc & _ & _ &
         [(_ & -> & _)
         |(_ & [(e & _ & -> & _)
               |(rows & _ & [(e & _ & -> & _)
                            |(_ & _ & _ & _ &
                              [(e & _ & Hdocs & _)
                              |(model & _ & Hdocs & _)])])])])]; auto.
  rewrite Hdocs, dict_set_keys_str.
  destruct (existsb _ (map fst (documents s))) eqn:Hex.
  - split; [assumption|]. intros x Hx. apply in_or_app. auto.
  - split.
    + apply NoDup_app; [assumption|repeat constructor; intros []|].
      intros x Hx [Heq|[]]. subst x.
      enough (Ht : existsb
                     (String.eqb (md5_hexdigest (upload_filename file)))
                     (map fst (documents s)) = true) by congruence.
      apply existsb_exists.
      eexists. split; [exact Hx|]. apply String.eqb_refl.
    + intros x Hx. apply in_app_or in Hx as [Hx|[<-|[]]];
        apply in_or_app; [auto|right; left; reflexivity].
Qed.

(** X14: in every state reached from an empty upload directory the listing
    holds every document id at most once, also after a file was ingested
    again, and only ids of files that were ingested. *)
Theorem documents_are_listed_once ids s :
  ingested ids s ->
  NoDup (map entry_document_id (get_all_documents s))
  /\ Forall (fun e => In (entry_document_id e) ids) (get_all_documents s).
Proof.
  intros Hing. destruct (ingested_documents _ _ Hing) as [Hnd Hin].
  rewrite listing_ids. split; [assumption|].
  apply Forall_forall. intros e He.
  apply Hin. rewrite <- listing_ids. apply in_map. assumption.
Qed.

(** X15: the chunk count listed for a document is the count of its last
    successful ingestion: in every state reached from an empty upload
    directory it is positive and at most the number of chunks held for the
    document, which is larger after the file was ingested again. *)
Theorem listed_count_is_a_lower_bound ids s :
  ingested ids s ->
  Forall (fun e =>
            (0 < entry_chunks_count e
             <= length (chunks_of (entry_document_id e) s))%nat)
    (get_all_documents s).
Proof.
  intros Hing.
  assert (Hinv : forall d m, In (d, m) (documents s) ->
            (0 < meta_chunks_count m
             <= length (filter (fun c => String.eqb (document_id c) d)
                          (chunks s)))%nat).
  { induction Hing as [|ids s disk file s' disk' r Hing IH Hcall];
      [intros d m []|].
    destruct (process_document_inv _ _ _ _ _ _ Hcall)
      as [(e & _ & -> & _)
         |(tc & _ & Htc &
           [(_ & -> & _)
           |(Hne & [(e & _ & -> & _)
                   |(rows & _ & [(e & _ & -> & _)
                                |(_ & _ & Hch & _ &
                                  [(e & _ & Hdocs & _)
                                  |(model & _ & Hdocs & _)])])])])]; auto.
    - intros d m Hin. rewrite Hdocs in Hin. apply IH in Hin.
      rewrite Hch, filter_app, length_app. lia.
    - intros d m Hin. rewrite Hdocs in Hin.
      rewrite Hch, filter_app, length_app.
      apply dict_set_items_str in Hin as [[-> ->]|Hin].
      + simpl. rewrite (filter_all _ tc).
        * destruct tc; [contradiction|simpl; lia].
        * apply _extract_and_chunk_pdf_added in Htc as [Hnamed _].
          eapply Forall_impl; [|exact Hnamed]. simpl.
          intros c [-> _]. apply String.eqb_refl.
      + apply IH in Hin. lia. }
  apply Forall_forall. intros e He.
  apply listing_in in He. apply Hinv in He. exact He.
Qed.

(* ----------------------------------------------------------------- *)
(** *** Persistence *)






End IngestionTheorems.

(* ================================================================= *)
(** ** The further theorems at the two instances *)





Lemma keyword_corpus_witness :
  tokenized_chunks Demo.corpus_a
  = map (fun c => @_tokenize Demo.library (content c)) (chunks Demo.corpus_a)
  /\ exists model,
       bm25 Demo.corpus_a = Some model
       /\ @BM25Okapi Demo.library (tokenized_chunks Demo.corpus_a) = Ok model.
Proof.
  apply (@keyword_corpus_matches_chunks Demo.library fresh empty_disk
           Demo.file_a Demo.corpus_a
           (snd (Demo.ingest Demo.start Demo.file_a)) Demo.response_a
           demo_first_call).
  reflexivity.
Defined.

Lemma stored_document_witness :
  In {| entry_document_id := resp_document_id Demo.response_a;
        entry_filename := resp_filename Demo.response_a;
        entry_path := @upload_path Demo.library
                        (resp_filename Demo.response_a);
        entry_chunks_count := resp_chunks_count Demo.response_a |}
     (@list_documents Demo.library Demo.corpus_aa)
  /\ @list_documents Demo.library Demo.corpus_aa
     = get_all_documents Demo.corpus_aa
  /\ length (chunks Demo.corpus_aa)
     = (length (chunks Demo.corpus_a)
        + resp_chunks_count Demo.response_a)%nat
  /\ map entry_document_id (@get_all_documents Demo.library Demo.corpus_aa)
     = (if existsb (String.eqb (resp_document_id Demo.response_a))
             (map entry_document_id
                (@get_all_documents Demo.library Demo.corpus_a))
        then map entry_document_id
               (@get_all_documents Demo.library Demo.corpus_a)
        else map entry_document_id
               (@get_all_documents Demo.library Demo.corpus_a)
             ++ [resp_document_id Demo.response_a])
  /\ forall e,
       entry_document_id e <> resp_document_id Demo.response_a ->
       (In e (@get_all_documents Demo.library Demo.corpus_aa)
        <-> In e (@get_all_documents Demo.library Demo.corpus_a)).
Proof.
  apply (@stored_document_is_listed Demo.library Demo.corpus_a
           (snd (Demo.ingest Demo.start Demo.file_a)) Demo.file_a
           Demo.corpus_aa
           (snd (fold_left Demo.ingest [Demo.file_a; Demo.file_a] Demo.start))
           Demo.response_a demo_repeated_call).
  reflexivity.
Defined.

Lemma documents_are_listed_once_witness :
  NoDup (map entry_document_id
           (@get_all_documents Demo.library Demo.corpus_aa))
  /\ Forall (fun e =>
               In (entry_document_id e)
                 [Demo.digest "A.pdf"; Demo.digest "A.pdf"])
       (@get_all_documents Demo.library Demo.corpus_aa).
Proof.
  apply (@documents_are_listed_once Demo.library
           [Demo.digest "A.pdf"; Demo.digest "A.pdf"] Demo.corpus_aa
           demo_ingested_twice).
Defined.

Lemma listed_count_witness :
  Forall (fun e =>
            (0 < entry_chunks_count e
             <= length (@chunks_of Demo.library (entry_document_id e)
                          Demo.corpus_aa))%nat)
    (@get_all_documents Demo.library Demo.corpus_aa).
Proof.
  apply (@listed_count_is_a_lower_bound Demo.library
           [Demo.digest "A.pdf"; Demo.digest "A.pdf"] Demo.corpus_aa
           demo_ingested_twice).
Defined.







(* ================================================================= *)
(** ** The search as a whole *)

Lemma keep_candidate_passes filters data :
  usable_range filters ->
  keep_candidate filters data = Ok (passes filters data).
Proof.
  unfold usable_range, keep_candidate, passes, document_ok.
  destruct (filter_value filters document PyStr.truthy) as [doc|];
    destruct (filter_value filters page_range list_truthy)
      as [[|pmin [|pmax range]]|];
    simpl; try lia; intros _;
    try rewrite getitem_first; try rewrite getitem_second; simpl;
    repeat match goal with
    | |- context [String.eqb ?a ?b] => destruct (String.eqb a b); simpl
    | |- context [(?a <=? ?b)%Z] => destruct (a <=? b)%Z; simpl
    end;
    try reflexivity;
    destruct (filter_value filters min_confidence Py.float_truthy) as [c|];
    simpl; try reflexivity;
    destruct (sc_score data <? c)%float; reflexivity.
Qed.

(** The loop keeps the first [top_k] candidates that pass. *)
Lemma filter_loop_firstn filters top_k candidates acc :
  usable_range filters ->
  (Z.of_nat (length acc) < top_k)%Z ->
  filter_loop filters top_k candidates acc
  = Ok (acc ++ map annotate_item
                 (firstn (Z.to_nat top_k - length acc)
                    (filter (fun x => passes filters (snd x)) candidates))).
Proof.
  intros Hrange. revert acc.
  induction candidates as [|[idx data] rest IH]; intros acc Hlen; simpl.
  - rewrite firstn_nil, app_nil_r. reflexivity.
  - rewrite keep_candidate_passes by assumption. simpl.
    destruct (passes filters data); [|apply IH; assumption].
    destruct (Z.leb_spec top_k
                (Z.of_nat (length (acc ++ [(idx, annotate data)]))))
      as [Hfull|Hmore]; rewrite length_app in *; simpl in *.
    + replace (Z.to_nat top_k - length acc)%nat with 1%nat by lia.
      simpl. reflexivity.
    + rewrite IH by (rewrite length_app; simpl; lia).
      rewrite length_app. simpl.
      replace (Z.to_nat top_k - length acc)%nat
        with (S (Z.to_nat top_k - (length acc + 1)))%nat by lia.
      simpl. rewrite <- app_assoc. reflexivity.
Qed.

Lemma firstn_slice_to {A} (l : list A) k :
  (0 <= k)%Z -> firstn (Z.to_nat k) (Py.slice_to l (k * 2)) = firstn (Z.to_nat k) l.
Proof.
  intros Hk. unfold Py.slice_to.
  destruct (Z.ltb_spec (k * 2) 0); [lia|].
  rewrite firstn_firstn. f_equal. lia.
Qed.

Lemma filter_true {A} (l : list A) : filter (fun _ => true) l = l.
Proof.
  induction l as [|x l IH]; simpl; [reflexivity|]. rewrite IH. reflexivity.
Qed.

(** A page range of one bound: [filters['page_range'][1]] raises for every
    candidate that reaches the page filter. *)
Lemma keep_candidate_short_range f p data :
  page_range f = Some [p] ->
  keep_candidate (Some f) data
  = if document_ok (Some f) data then Raise IndexError else Ok false.
Proof.
  intros Hp. unfold keep_candidate, document_ok.
  assert (Hrange : filter_value (Some f) page_range list_truthy = Some [p]).
  { simpl. rewrite Hp. reflexivity. }
  rewrite Hrange.
  destruct (filter_value (Some f) document PyStr.truthy) as [doc|].
  - destruct (String.eqb (filename (sc_chunk data)) doc); reflexivity.
  - reflexivity.
Qed.

Lemma filter_loop_short_range f p top_k candidates acc :
  page_range f = Some [p] ->
  filter_loop (Some f) top_k candidates acc
  = if existsb (fun x => document_ok (Some f) (snd x)) candidates
    then Raise IndexError else Ok acc.
Proof.
  intros Hp. revert acc.
  induction candidates as [|[idx data] rest IH]; intros acc;
    [reflexivity|].
  cbn [filter_loop existsb snd].
  rewrite (keep_candidate_short_range f p) by assumption.
  destruct (document_ok (Some f) data); simpl; [reflexivity|apply IH].
Qed.

Lemma score_hits_beyond chunks bm hits acc :
  Forall (fun h => (Z.of_nat (length chunks) <= snd h)%Z) hits ->
  score_hits chunks bm hits acc = Ok acc.
Proof.
  induction 1 as [|[dist idx] hits Hidx _ IH]; simpl; [reflexivity|].
  simpl in Hidx. destruct (Z.ltb_spec idx (Z.of_nat (length chunks))); [lia|].
  exact IH.
Qed.

Section SearchTheorems.

Context {lib : Libraries}.

(** X20: the search retrieves, then filters, then truncates.  For
    [top_k >= 0] and a page range that is falsy or has two bounds, the
    result is the first [top_k] of those among the first [2 * top_k]
    candidates, best score first, that pass every filter with a truthy
    value; nothing the search returns comes from beyond the first
    [2 * top_k] candidates, however many pass there.  Without filters the
    result is the first [top_k] candidates. *)
Theorem search_is_filter_then_truncate s query top_k filters combined :
  ntotal (index s) <> 0%nat ->
  (0 <= top_k)%Z ->
  usable_range filters ->
  combined_results s query top_k = Ok combined ->
  search_documents s query top_k filters
  = Ok (map (fun x => annotate (snd x))
          (firstn (Z.to_nat top_k)
             (filter (fun x => passes filters (snd x))
                (Py.slice_to (sorted_by_score combined) (top_k * 2)))))
  /\ search_documents s query top_k None
     = Ok (map (fun x => annotate (snd x))
             (firstn (Z.to_nat top_k) (sorted_by_score combined))).
Proof.
  intros Hne Hk Hrange Hcombined.
  assert (Hgen : forall f, usable_range f ->
            search_documents s query top_k f
            = Ok (map (fun x => annotate (snd x))
                    (firstn (Z.to_nat top_k)
                       (filter (fun x => passes f (snd x))
                          (Py.slice_to (sorted_by_score combined)
                             (top_k * 2)))))).
  { intros f Hf. unfold search_documents, search_ranked.
    apply Nat.eqb_neq in Hne. rewrite Hne, Hcombined. simpl.
    destruct (Z.eq_dec top_k 0) as [->|Hpos].
    - reflexivity.
    - rewrite filter_loop_firstn by (simpl; assumption || lia).
      simpl. rewrite Nat.sub_0_r, map_map. reflexivity. }
  split; [apply Hgen; assumption|].
  rewrite Hgen by exact I.
  change (fun x : Z * Scored => passes None (snd x))
    with (fun _ : Z * Scored => true).
  rewrite filter_true, firstn_slice_to by assumption. reflexivity.
Qed.

(** X21: a [page_range] filter with a single bound makes the search raise
    [IndexError] as soon as one of the first [2 * top_k] candidates gets past
    the document filter; when none does, the search returns the empty
    list. *)
Theorem short_page_range_raises s query top_k f p combined :
  ntotal (index s) <> 0%nat ->
  page_range f = Some [p] ->
  combined_results s query top_k = Ok combined ->
  search_documents s query top_k (Some f)
  = if existsb (fun x => document_ok (Some f) (snd x))
         (Py.slice_to (sorted_by_score combined) (top_k * 2))
    then Raise IndexError else Ok [].
Proof.
  intros Hne Hp Hcombined. unfold search_documents, search_ranked.
  apply Nat.eqb_neq in Hne. rewrite Hne, Hcombined. simpl.
  rewrite (filter_loop_short_range f p) by assumption.
  destruct (existsb _ _); reflexivity.
Qed.

(** X22: positions beyond the chunk list are skipped.  When the vector
    search returns only labels at or beyond [len(chunks)], as it does for a
    processor that loaded an index file and no chunks, the search returns
    the empty list and does not raise. *)
Theorem search_beyond_the_chunks s query top_k filters hits bm25_scores :
  vector_hits s query top_k = Ok hits ->
  keyword_scores s query = Ok bm25_scores ->
  Forall (fun h => (Z.of_nat (length (chunks s)) <= snd h)%Z) hits ->
  search_documents s query top_k filters = Ok [].
Proof.
  intros Hhits Hbm Hall. unfold search_documents, search_ranked.
  destruct (ntotal (index s) =? 0)%nat; [reflexivity|].
  unfold combined_results. rewrite Hhits, Hbm. simpl.
  rewrite score_hits_beyond by assumption. simpl.
  unfold Py.slice_to. destruct (top_k * 2 <? 0)%Z;
    rewrite firstn_nil; reflexivity.
Qed.

End SearchTheorems.

Lemma demo_combined_run :
  @combined_results Demo.library Demo.corpus_ab "alpha" 5
  = Ok Demo.combined_alpha.
Proof.
  vm_compute. reflexivity.
Defined.

Lemma search_is_filter_then_truncate_witness :
  @search_documents Demo.library Demo.corpus_ab "alpha" 5
    (Some Demo.filters_b)
  = Ok (map (fun x => annotate (snd x))
          (firstn (Z.to_nat 5)
             (filter (fun x => passes (Some Demo.filters_b) (snd x))
                (Py.slice_to (sorted_by_score Demo.combined_alpha) (5 * 2)))))
  /\ @search_documents Demo.library Demo.corpus_ab "alpha" 5 None
     = Ok (map (fun x => annotate (snd x))
             (firstn (Z.to_nat 5) (sorted_by_score Demo.combined_alpha))).
Proof.
  apply (@search_is_filter_then_truncate Demo.library Demo.corpus_ab "alpha"
           5 (Some Demo.filters_b) Demo.combined_alpha).
  - vm_compute. discriminate.
  - lia.
  - vm_compute. lia.
  - exact demo_combined_run.
Defined.

Lemma short_page_range_witness :
  @search_documents Demo.library Demo.corpus_ab "alpha" 5
    (Some {| document := Some "B.pdf"; page_range := Some [1%Z];
             min_confidence := None |})
  = if existsb
         (fun x =>
            document_ok
              (Some {| document := Some "B.pdf"; page_range := Some [1%Z];
                       min_confidence := None |}) (snd x))
         (Py.slice_to (sorted_by_score Demo.combined_alpha) (5 * 2))
    then Raise IndexError else Ok [].
Proof.
  apply (@short_page_range_raises Demo.library Demo.corpus_ab "alpha" 5
           {| document := Some "B.pdf"; page_range := Some [1%Z];
              min_confidence := None |} 1%Z Demo.combined_alpha).
  - vm_compute. discriminate.
  - reflexivity.
  - exact demo_combined_run.
Defined.

Lemma search_beyond_the_chunks_witness :
  @search_documents Demo.library
    (@_load_persistent_data Demo.library fresh Demo.index_only) "alpha" 5 None
  = Ok [].
Proof.
  apply (@search_beyond_the_chunks Demo.library
           (@_load_persistent_data Demo.library fresh Demo.index_only)
           "alpha" 5 None [(0.25%float, 0%Z)] []).
  - vm_compute. reflexivity.
  - reflexivity.
  - repeat constructor. simpl. lia.
Defined.

(* ================================================================= *)
(** ** The caller: answering a query *)

Lemma prefix_app a b : String.prefix a (a ++ b) = true.
Proof.
  induction a as [|c a IH]; simpl; [destruct b; reflexivity|].
  destruct (ascii_dec c c); [exact IH|contradiction].
Qed.

Lemma append_assoc (a b c : string) :
  ((a ++ b) ++ c)%string = (a ++ (b ++ c))%string.
Proof.
  induction a as [|x a IH]; simpl; congruence.
Qed.

Lemma fold_left_append {A} (g : A -> string) l init :
  fold_left (fun acc item => (acc ++ g item)%string) l init
  = (init ++ fold_left (fun acc item => (acc ++ g item)%string) l
               EmptyString)%string.
Proof.
  revert init. induction l as [|x l IH]; intros init; simpl.
  - induction init as [|c init IHi]; simpl; congruence.
  - rewrite IH. rewrite (IH (g x)).
    clear. induction init as [|c init IHi]; simpl; congruence.
Qed.

Lemma append_length a b :
  String.length (a ++ b) = (String.length a + String.length b)%nat.
Proof.
  induction a as [|c a IH]; simpl; congruence.
Qed.

Lemma preview_of_length text : (String.length (preview_of text) <= 153)%nat.
Proof.
  unfold preview_of.
  destruct (Nat.ltb_spec 150 (String.length text)); [|lia].
  rewrite append_length. unfold PyStr.slice.
  rewrite PyStrFacts.substring_length.
  change (String.length "...") with 3%nat. lia.
Qed.

Lemma slice_to_3 {A} (l : list A) : Py.slice_to l 3 = firstn 3 l.
Proof.
  reflexivity.
Qed.

Section RAGTheorems.

Context {lib : Libraries} {llm : Gemini}.

Lemma search_documents_length processor query top_k filters results :
  (0 <= top_k)%Z ->
  search_documents processor query top_k filters = Ok results ->
  (Z.of_nat (length results) <= top_k)%Z.
Proof.
  intros Hk H. apply search_documents_ranked in H as (ranked & Hr & ->).
  rewrite length_map. eapply search_ranked_length; eassumption.
Qed.

(** X23: a query asked while the index holds no vector gets the fixed
    answer that nothing was found, with no source and the confidence
    ["low"], whatever the key, the model, the query and the filters; the
    model is not asked.  A truthy conversation id gets the exchange
    appended to its history. *)
Theorem query_before_any_document p processor query conv_id filters :
  doc_processor p = Some processor ->
  ntotal (index processor) = 0%nat ->
  exists p',
    process_query p query conv_id filters
    = Ok (p', {| reply := {| answer := no_results_answer;
                             sources := [];
                             confidence := "low";
                             chunks_found := None |};
                 conversation_id := conv_id |})
    /\ (PyText.truthy conv_id = false -> p' = p)
    /\ forall cid,
         conv_id = Some cid -> cid <> EmptyString ->
         history_of p' cid
         = history_of p cid
           ++ [{| exchange_query := query;
                  exchange_answer := no_results_answer;
                  exchange_sources := [] |}].
Proof.
  intros Hp Hzero. unfold process_query. rewrite Hp.
  unfold search_documents. rewrite search_ranked_empty by assumption.
  simpl. eexists. split; [reflexivity|]. split.
  - destruct conv_id as [[|c cid]|]; simpl; try discriminate; reflexivity.
  - intros cid -> Hne. destruct cid as [|c cid]; [contradiction|].
    unfold history_of. simpl conversation_history.
    rewrite dict_set_get_same_str. reflexivity.
Qed.

(** X24: without a configured client, every query that retrieves something
    is answered with the confidence ["error"]: the answer opens with the
    notice that the Gemini API key is missing, the sources are the top three
    chunks with their scores as retrieved and without preview, and there is
    no ["chunks_found"].  So it is for every pipeline constructed with a key
    that is missing, empty, a ["YOUR_"] placeholder or not an ["AIza"] key,
    or without the package. *)
Theorem missing_key_is_reported p query context_chunks :
  context_chunks <> [] ->
  client p = false \/ api_key_valid p = false ->
  confidence (generate_answer p query context_chunks) = "error"
  /\ chunks_found (generate_answer p query context_chunks) = None
  /\ sources (generate_answer p query context_chunks)
     = map error_source (firstn 3 context_chunks)
  /\ PyText.startswith (answer (generate_answer p query context_chunks))
       key_needed = true
  /\ forall key available configured processor,
       usable_key key = false \/ available = false ->
       client (rag_init key available configured processor) = false.
Proof.
  intros Hne Hkey.
  assert (Hgen : generate_answer p query context_chunks
                 = error_answer configuration_error context_chunks).
  { unfold generate_answer.
    destruct context_chunks; [contradiction|]. simpl Py.is_nil. cbv iota.
    destruct Hkey as [-> | ->]; simpl; [reflexivity|].
    rewrite orb_true_r. reflexivity. }
  rewrite Hgen. unfold error_answer.
  replace (PyText.contains "api key" (PyText.lower configuration_error))
    with true by (vm_compute; reflexivity).
  simpl orb. cbv iota. cbn [answer sources confidence chunks_found].
  rewrite slice_to_3.
  repeat (split; [reflexivity|]). split.
  - rewrite fold_left_append. unfold PyText.startswith.
    rewrite append_assoc. apply prefix_app.
  - intros key available configured processor [Hk | Ha]; simpl.
    + rewrite Hk. reflexivity.
    + rewrite Ha, andb_false_r. reflexivity.
Qed.

(** X25: with a configured client a failure of the model is not an error
    of the query.  The confidence is ["high"], ["medium"] or ["low"], never
    ["error"]; ["chunks_found"] is the number of retrieved chunks; the
    sources are the top three chunks in their order, each with a preview of
    at most 153 characters; and when the call of the model raises, the
    answer is the notice that quotes the first 800 characters of the
    context. *)
Theorem model_failure_is_not_an_error p query context_chunks :
  context_chunks <> [] ->
  client p = true ->
  api_key_valid p = true ->
  In (confidence (generate_answer p query context_chunks))
     ["high"; "medium"; "low"]
  /\ chunks_found (generate_answer p query context_chunks)
     = Some (length context_chunks)
  /\ sources (generate_answer p query context_chunks)
     = map source_of (firstn 3 context_chunks)
  /\ Forall (fun src =>
               exists text,
                 src_preview src = Some text
                 /\ (String.length text <= 153)%nat)
       (sources (generate_answer p query context_chunks))
  /\ (use_gemini p = true ->
      forall e,
        generate_content
          (full_prompt_of (prompt_of query (context_of context_chunks)))
        = Raise e ->
        answer (generate_answer p query context_chunks)
        = fallback_answer (context_of context_chunks) note_unavailable).
Proof.
  intros Hne Hc Hv. unfold generate_answer.
  destruct context_chunks as [|c0 cs] eqn:Hchunks; [contradiction|].
  simpl Py.is_nil. cbv iota. rewrite Hc, Hv. simpl negb. simpl orb.
  cbv iota. rewrite <- Hchunks. simpl.
  split.
  { unfold confidence_of.
    destruct (0.7 <? _)%float; [simpl; auto|].
    destruct (0.5 <? _)%float; simpl; auto. }
  split; [reflexivity|]. split; [reflexivity|]. split.
  { apply Forall_forall. intros src Hsrc.
    rewrite slice_to_3 in Hsrc.
    apply in_map_iff in Hsrc as [c [<- _]]. simpl.
    eexists. split; [reflexivity|apply preview_of_length]. }
  intros Hg e He. unfold answer_text. rewrite Hg, He. reflexivity.
Qed.

(** X26: what [process_query] reports comes from the search.  When it
    returns, the search returned at most five chunks; the sources name, in
    their order, the file and page of the first three of them, whichever way
    the answer was produced; ["chunks_found"], when it is there, is the
    number of chunks the search returned; and the conversation id is handed
    back. *)
Theorem query_sources_are_top_results
    p processor query conv_id filters p' r :
  doc_processor p = Some processor ->
  process_query p query conv_id filters = Ok (p', r) ->
  exists context_chunks,
    search_documents processor query 5 filters = Ok context_chunks
    /\ (length context_chunks <= 5)%nat
    /\ map (fun src => (src_filename src, src_page_number src))
         (sources (reply r))
       = map (fun c => (filename (rc_chunk c), page_number (rc_chunk c)))
           (firstn 3 context_chunks)
    /\ (forall n, chunks_found (reply r) = Some n ->
          n = length context_chunks)
    /\ conversation_id r = conv_id.
Proof.
  intros Hp H. unfold process_query in H. rewrite Hp in H.
  apply bind_ok in H as (context_chunks & Hsearch & H).
  exists context_chunks. split; [assumption|].
  split.
  { apply search_documents_length in Hsearch; lia. }
  injection H as _ <-. cbn [reply conversation_id].
  unfold generate_answer.
  destruct (Py.is_nil context_chunks) eqn:Hnil.
  { destruct context_chunks; [|discriminate]. simpl.
    split; [reflexivity|]. split; [intros n [=]|reflexivity]. }
  destruct (negb (client p) || negb (api_key_valid p));
    cbn [sources chunks_found error_answer]; rewrite map_map, slice_to_3.
  - split; [reflexivity|]. split; [intros n [=]|reflexivity].
  - split; [reflexivity|]. split; [|reflexivity].
    intros n [= <-]. reflexivity.
Qed.

(** X27: the conversation history.  A call of [process_query] that returns
    changes nothing of the pipeline but the history.  With a conversation id
    that is not empty, and a document processor, it appends one exchange,
    the query with the answer and the sources it returns, to the history of
    that conversation and leaves every other conversation as it was; with
    no id, an empty id or no document processor it leaves the history as it
    was. *)
Theorem query_history p query conv_id filters p' r :
  process_query p query conv_id filters = Ok (p', r) ->
  client p' = client p
  /\ use_gemini p' = use_gemini p
  /\ api_key_valid p' = api_key_valid p
  /\ doc_processor p' = doc_processor p
  /\ (PyText.truthy conv_id = false \/ doc_processor p = None -> p' = p)
  /\ forall cid,
       conv_id = Some cid -> cid <> EmptyString ->
       doc_processor p <> None ->
       history_of p' cid
       = history_of p cid
         ++ [{| exchange_query := query;
                exchange_answer := answer (reply r);
                exchange_sources := sources (reply r) |}]
       /\ forall other,
            other <> cid -> history_of p' other = history_of p other.
Proof.
  unfold process_query.
  destruct (doc_processor p) as [processor|] eqn:Hp.
  2:{ intros [= <- <-]. do 4 (split; [assumption || reflexivity|]).
      split; [reflexivity|]. intros cid _ _ Hnone. contradiction. }
  intros H. apply bind_ok in H as (context_chunks & Hsearch & H).
  injection H as <- <-.
  destruct conv_id as [given|].
  2:{ do 4 (split; [assumption || reflexivity|]).
      split; [reflexivity|]. intros cid [=]. }
  destruct given as [|c given].
  { do 4 (split; [assumption || reflexivity|]).
    split; [reflexivity|]. intros cid [= <-] Hne. contradiction. }
  simpl PyStr.truthy. cbv iota. cbn [client use_gemini api_key_valid
    doc_processor reply].
  do 4 (split; [assumption || reflexivity|]).
  split.
  { intros [[=]|[=]]. }
  intros cid [= <-] _ _. unfold history_of. simpl conversation_history.
  split.
  - rewrite dict_set_get_same_str. reflexivity.
  - intros other Hne. rewrite dict_set_get_other_str by assumption.
    reflexivity.
Qed.

End RAGTheorems.

Lemma query_before_any_document_witness :
  exists p',
    @process_query Demo.library Models.answering Models.over_nothing
      "alpha" (Some "c1") None
    = Ok (p', {| reply := {| answer := no_results_answer;
                             sources := [];
                             confidence := "low";
                             chunks_found := None |};
                 conversation_id := Some "c1" |})
    /\ (PyText.truthy (Some "c1") = false -> p' = Models.over_nothing)
    /\ forall cid,
         Some "c1" = Some cid -> cid <> EmptyString ->
         history_of p' cid
         = history_of Models.over_nothing cid
           ++ [{| exchange_query := "alpha";
                  exchange_answer := no_results_answer;
                  exchange_sources := [] |}].
Proof.
  apply (@query_before_any_document Demo.library Models.answering
           Models.over_nothing (@fresh Demo.library) "alpha" (Some "c1")
           None); reflexivity.
Defined.

Lemma missing_key_witness :
  confidence
    (@generate_answer Demo.library Models.answering Models.without_key
       "alpha" Models.retrieved) = "error"
  /\ chunks_found
       (@generate_answer Demo.library Models.answering Models.without_key
          "alpha" Models.retrieved) = None
  /\ sources
       (@generate_answer Demo.library Models.answering Models.without_key
          "alpha" Models.retrieved)
     = map error_source (firstn 3 Models.retrieved)
  /\ PyText.startswith
       (answer
          (@generate_answer Demo.library Models.answering Models.without_key
             "alpha" Models.retrieved)) key_needed = true
  /\ forall key available configured processor,
       usable_key key = false \/ available = false ->
       client (@rag_init Demo.library key available configured processor)
       = false.
Proof.
  apply (@missing_key_is_reported Demo.library Models.answering
           Models.without_key "alpha" Models.retrieved).
  - vm_compute. discriminate.
  - left. vm_compute. reflexivity.
Defined.

Lemma model_failure_witness :
  In (confidence
        (@generate_answer Demo.library Models.failing Models.with_key
           "alpha" Models.retrieved)) ["high"; "medium"; "low"]
  /\ chunks_found
       (@generate_answer Demo.library Models.failing Models.with_key
          "alpha" Models.retrieved) = Some (length Models.retrieved)
  /\ sources
       (@generate_answer Demo.library Models.failing Models.with_key
          "alpha" Models.retrieved)
     = map (@source_of Models.failing) (firstn 3 Models.retrieved)
  /\ Forall (fun src =>
               exists text,
                 src_preview src = Some text
                 /\ (String.length text <= 153)%nat)
       (sources
          (@generate_answer Demo.library Models.failing Models.with_key
             "alpha" Models.retrieved))
  /\ (use_gemini Models.with_key = true ->
      forall e,
        @generate_content Models.failing
          (full_prompt_of (prompt_of "alpha" (context_of Models.retrieved)))
        = Raise e ->
        answer
          (@generate_answer Demo.library Models.failing Models.with_key
             "alpha" Models.retrieved)
        = fallback_answer (context_of Models.retrieved) note_unavailable).
Proof.
  apply (@model_failure_is_not_an_error Demo.library Models.failing
           Models.with_key "alpha" Models.retrieved).
  - vm_compute. discriminate.
  - vm_compute. reflexivity.
  - vm_compute. reflexivity.
Defined.

Lemma models_asked_call :
  @process_query Demo.library Models.answering Models.with_key "alpha"
    (Some "c1") None
  = Ok (fst Models.asked, snd Models.asked).
Proof.
  vm_compute. reflexivity.
Defined.

Lemma query_sources_witness :
  exists context_chunks,
    @search_documents Demo.library Demo.corpus_ab "alpha" 5 None
    = Ok context_chunks
    /\ (length context_chunks <= 5)%nat
    /\ map (fun src => (src_filename src, src_page_number src))
         (sources (reply (snd Models.asked)))
       = map (fun c => (filename (rc_chunk c), page_number (rc_chunk c)))
           (firstn 3 context_chunks)
    /\ (forall n, chunks_found (reply (snd Models.asked)) = Some n ->
          n = length context_chunks)
    /\ conversation_id (snd Models.asked) = Some "c1".
Proof.
  apply (@query_sources_are_top_results Demo.library Models.answering
           Models.with_key Demo.corpus_ab "alpha" (Some "c1") None
           (fst Models.asked) (snd Models.asked)).
  - reflexivity.
  - exact models_asked_call.
Defined.

Lemma query_history_witness :
  client (fst Models.asked) = client Models.with_key
  /\ use_gemini (fst Models.asked) = use_gemini Models.with_key
  /\ api_key_valid (fst Models.asked) = api_key_valid Models.with_key
  /\ doc_processor (fst Models.asked) = doc_processor Models.with_key
  /\ (PyText.truthy (Some "c1") = false
      \/ doc_processor Models.with_key = None ->
      fst Models.asked = Models.with_key)
  /\ forall cid,
       Some "c1" = Some cid -> cid <> EmptyString ->
       doc_processor Models.with_key <> None ->
       history_of (fst Models.asked) cid
       = history_of Models.with_key cid
         ++ [{| exchange_query := "alpha";
                exchange_answer := answer (reply (snd Models.asked));
                exchange_sources := sources (reply (snd Models.asked)) |}]
       /\ forall other,
            other <> cid ->
            history_of (fst Models.asked) other
            = history_of Models.with_key other.
Proof.
  apply (@query_history Demo.library Models.answering Models.with_key
           "alpha" (Some "c1") None (fst Models.asked) (snd Models.asked)
           models_asked_call).
Defined.

Section KeywordInvariant.

Context {lib : Libraries}.

(** X28: in every state reached from an empty upload directory, whatever
    the outcomes of the calls, the token lists are the chunks tokenized,
    position by position; a keyword model that is present was built over the
    first chunks of the list, all of them unless a later build raised; and a
    document is listed only when a keyword model is present. *)
Theorem ingested_keyword_index ids s :
  ingested ids s ->
  tokenized_chunks s = map (fun c => _tokenize (content c)) (chunks s)
  /\ (forall model,
        bm25 s = Some model ->
        exists n,
          (n <= length (chunks s))%nat
          /\ BM25Okapi
               (map (fun c => _tokenize (content c)) (firstn n (chunks s)))
             = Ok model)
  /\ (bm25 s = None -> get_all_documents s = []).
Proof.
  induction 1 as [|ids s disk file s' disk' r Hing (IHtok & IHb & IHd) Hcall].
  { split; [reflexivity|]. split; [intros model [=]|reflexivity]. }
  destruct (process_document_inv _ _ _ _ _ _ Hcall)
    as [(e & _ & -> & _)
       |(tc & _ & _ &
         [(_ & -> & _)
         |(_ & [(e & _ & -> & _)
               |(rows & _ & [(e & _ & -> & _)
                            |(_ & _ & Hch & Htok &
                              [(e & _ & Hdocs & Hb & _)
                              |(model & Hbm & _ & Hb & _)])])])])]; auto.
  - split; [rewrite Htok, Hch; reflexivity|]. split.
    + intros model Hm. rewrite Hb in Hm.
      destruct (IHb model Hm) as (n & Hn & Hbuilt).
      exists n. rewrite Hch, length_app. split; [lia|].
      rewrite firstn_app.
      replace (n - length (chunks s))%nat with 0%nat by lia.
      simpl. rewrite app_nil_r. exact Hbuilt.
    + intros Hnone. rewrite Hb in Hnone. apply IHd in Hnone.
      unfold get_all_documents in *. rewrite Hdocs. exact Hnone.
  - split; [rewrite Htok, Hch; reflexivity|]. split.
    + intros model' Hm. rewrite Hb in Hm. injection Hm as <-.
      exists (length (chunks s')). split; [lia|].
      rewrite firstn_all, Hch. exact Hbm.
    + rewrite Hb. discriminate.
Qed.

End KeywordInvariant.

Lemma ingested_keyword_index_witness :
  tokenized_chunks Demo.corpus_aa
  = map (fun c => @_tokenize Demo.library (content c))
      (chunks Demo.corpus_aa)
  /\ (forall model,
        bm25 Demo.corpus_aa = Some model ->
        exists n,
          (n <= length (chunks Demo.corpus_aa))%nat
          /\ @BM25Okapi Demo.library
               (map (fun c => @_tokenize Demo.library (content c))
                  (firstn n (chunks Demo.corpus_aa)))
             = Ok model)
  /\ (bm25 Demo.corpus_aa = None
      -> @get_all_documents Demo.library Demo.corpus_aa = []).
Proof.
  apply (@ingested_keyword_index Demo.library
           [Demo.digest "A.pdf"; Demo.digest "A.pdf"] Demo.corpus_aa
           demo_ingested_twice).
Defined.
